(** * Grocery Management API: products, ledger and the purchase endpoint

    A shallow embedding of [src/main.py].  The two SQL tables are lists of
    rows in insertion order, the request handlers are programs in a small
    state-and-exception monad over the database and the wall clock, and the
    theorems at the end relate the handlers to the written specification. *)

From stdpp Require Import base option list strings sorting.
From Stdlib Require Import ZArith Ascii String Lia.

Open Scope string_scope.
Open Scope Z_scope.

(** ** Column types *)

(** [DateTime] columns: an absolute instant, in microseconds. *)
Definition datetime : Type := Z.

(** [Numeric(10, 2)] / [condecimal(decimal_places=2)]: a fixed-point amount,
    held as its number of hundredths. *)
Definition Decimal : Type := Z.

(** ** ORM rows *)

Module ProductORM.
Record t : Type := mk {
  id : option Z;              (* None until the row has been flushed *)
  name : string;
  category : option string;
  price : Decimal;
  stock : Z;
  description : option string;
  created_at : datetime;
  updated_at : datetime
}.

Definition set_id (v : option Z) (p : t) : t :=
  mk v (name p) (category p) (price p) (stock p) (description p)
     (created_at p) (updated_at p).
Definition set_name (v : string) (p : t) : t :=
  mk (id p) v (category p) (price p) (stock p) (description p)
     (created_at p) (updated_at p).
Definition set_category (v : option string) (p : t) : t :=
  mk (id p) (name p) v (price p) (stock p) (description p)
     (created_at p) (updated_at p).
Definition set_price (v : Decimal) (p : t) : t :=
  mk (id p) (name p) (category p) v (stock p) (description p)
     (created_at p) (updated_at p).
Definition set_stock (v : Z) (p : t) : t :=
  mk (id p) (name p) (category p) (price p) v (description p)
     (created_at p) (updated_at p).
Definition set_description (v : option string) (p : t) : t :=
  mk (id p) (name p) (category p) (price p) (stock p) v
     (created_at p) (updated_at p).
Definition set_updated_at (v : datetime) (p : t) : t :=
  mk (id p) (name p) (category p) (price p) (stock p) (description p)
     (created_at p) v.
End ProductORM.

Module TransactionORM.
Record t : Type := mk {
  id : option Z;
  product_id : option Z;
  type : string;              (* 'purchase' or 'sale' *)
  quantity : Z;
  unit_price : Decimal;
  note : option string;
  created_at : datetime
}.

Definition set_id (v : option Z) (x : t) : t :=
  mk v (product_id x) (type x) (quantity x) (unit_price x) (note x)
     (created_at x).
End TransactionORM.

(** ** Request and response schemas *)

(** A payload reaches its handler only after pydantic has checked the
    [Field] constraints of its schema, so a payload carries the evidence
    that it meets them. *)
Definition length_between (lo hi : nat) (s : string) : bool :=
  ((lo <=? String.length s) && (String.length s <=? hi))%nat.

Module ProductCreate.
Record t : Type := mk {
  name : string;
  category : option string;
  price : Decimal;
  stock : Z;
  description : option string;
  (* Field(..., min_length=1, max_length=200) *)
  name_length : Is_true (length_between 1 200 name);
  (* Field(None, max_length=100) *)
  category_length : Is_true (from_option (length_between 0 100) true category);
  (* Field(0, ge=0) *)
  stock_ge_0 : Is_true (0 <=? stock)
}.
End ProductCreate.

Module ProductUpdate.
Record t : Type := mk {
  name : option string;
  category : option string;
  price : option Decimal;
  stock : option Z;
  description : option string;
  (* Field(None, min_length=1, max_length=200) *)
  name_length : Is_true (from_option (length_between 1 200) true name);
  (* Field(None, max_length=100) *)
  category_length : Is_true (from_option (length_between 0 100) true category);
  (* Field(None, ge=0) *)
  stock_ge_0 : Is_true (from_option (Z.leb 0) true stock)
}.
End ProductUpdate.

Module TransactionCreate.
Record t : Type := mk {
  product_id : Z;
  type : string;
  quantity : positive;        (* PositiveInt *)
  unit_price : Decimal;
  note : option string
}.
End TransactionCreate.

Module TransactionOut.
Record t : Type := mk {
  id : option Z;
  product_id : option Z;
  type : string;
  quantity : Z;
  unit_price : Decimal;
  note : option string;
  created_at : datetime;
  product_name : option string
}.
End TransactionOut.

(** ** Exceptions *)

Inductive exn : Type :=
  | HTTPException (status_code : Z) (detail : string)
  | IntegrityError          (* sqlalchemy.exc: a constraint refused the row *)
  | OverflowError.          (* sqlite3: "Python int too large to convert to
                               SQLite INTEGER", raised when a statement's
                               parameters are bound *)

(** The names the specification gives to the handlers' failures. *)
Definition InvalidKind : exn :=
  HTTPException 400 "Invalid type. Use 'purchase' or 'sale'.".
Definition ProductNotFound : exn :=
  HTTPException 404 "Product not found".
Definition InsufficientStock : exn :=
  HTTPException 400 "Insufficient stock for sale".
Definition DuplicateName : exn :=
  HTTPException 400 "Product with this name already exists".

(** ** The database and the world a request runs in *)

Record Database : Type := mkDatabase {
  products : list ProductORM.t;           (* table "products", in rowid order *)
  transactions : list TransactionORM.t    (* table "transactions", likewise *)
}.

Record World : Type := mkWorld {
  db : Database;
  clock_reads : nat           (* how often the wall clock has been read *)
}.

Inductive outcome (A : Type) : Type :=
  | Return (a : A)
  | Raise (e : exn).
Arguments Return {A} a.
Arguments Raise {A} e.

Global Instance outcome_ret : MRet outcome := λ A a, Return a.
Global Instance outcome_bind : MBind outcome := λ A B f m,
  match m with
  | Return a => f a
  | Raise e => Raise e
  end.

(** A handler either returns or raises, and leaves a world behind. *)
Definition M (A : Type) : Type := World → outcome A * World.

Global Instance M_ret : MRet M := λ A a w, (Return a, w).
Global Instance M_bind : MBind M := λ A B f m w,
  match m w with
  | (Return a, w') => f a w'
  | (Raise e, w') => (Raise e, w')
  end.

Definition raise {A : Type} (e : exn) : M A := λ w, (Raise e, w).

(** [try: m except IntegrityError: h] *)
Definition try_except_IntegrityError {A : Type} (m : M A) (h : M A) : M A :=
  λ w, match m w with
       | (Raise IntegrityError, w') => h w'
       | r => r
       end.

(** ** Python's [str.strip()] *)

(** [str.isspace] on one character; a character of a [string] is read as
    the code point of the same number (U+0000 to U+00FF), where the
    whitespace characters are TAB..CR, FS..US, SPACE, NEL and NBSP. *)
Definition isspace (c : ascii) : bool :=
  let n := N_of_ascii c in
  ((9 <=? n) && (n <=? 13) || (28 <=? n) && (n <=? 32)
   || (n =? 133) || (n =? 160))%N.

Fixpoint lstrip (s : string) : string :=
  match s with
  | EmptyString => EmptyString
  | String c s' => if isspace c then lstrip s' else s
  end.

Fixpoint rstrip (s : string) : string :=
  match s with
  | EmptyString => EmptyString
  | String c s' =>
    match rstrip s' with
    | EmptyString => if isspace c then EmptyString else String c EmptyString
    | r => String c r
    end
  end.

(** [s.strip()] with no argument: the slice between the first and the last
    character that is not whitespace. *)
Definition strip (s : string) : string := rstrip (lstrip s).

Fixpoint all_space (s : string) : bool :=
  match s with
  | EmptyString => true
  | String c s' => isspace c && all_space s'
  end.

Definition starts_with_space (s : string) : bool :=
  match s with
  | EmptyString => false
  | String c _ => isspace c
  end.

Fixpoint ends_with_space (s : string) : bool :=
  match s with
  | EmptyString => false
  | String c EmptyString => isspace c
  | String _ s' => ends_with_space s'
  end.

(** ** SQL statements on the two tables *)

(** An INTEGER of SQLite is a signed 64-bit number.  A Python int outside
    that range cannot be bound to a statement: the statement raises
    OverflowError and is not run. *)
Definition INT64_MIN : Z := - 2 ^ 63.
Definition INT64_MAX : Z := 2 ^ 63 - 1.

Definition in_int64 (n : Z) : bool := (INT64_MIN <=? n) && (n <=? INT64_MAX).
Global Arguments in_int64 : simpl never.

Definition has_id (k : option Z) (p : ProductORM.t) : bool :=
  bool_decide (ProductORM.id p = k).

(** SQLite's rowid for an INSERT that supplies none: one more than the
    largest key in the table, 1 in an empty table. *)
Definition max_id (ids : list Z) : option Z :=
  foldr (λ k acc, Some (from_option (Z.max k) k acc)) None ids.

Definition next_rowid (ids : list Z) : Z :=
  from_option Z.succ 1 (max_id ids).

(** When the largest key is already the largest 64-bit number, SQLite
    tries positive keys at random until it finds one that is unused.  The
    smallest unused positive key stands for that choice here; nothing
    below depends on which unused key is taken. *)
Definition allocate_rowid (ids : list Z) : Z :=
  let k := next_rowid ids in
  if in_int64 k then k
  else default k (List.find (λ c, bool_decide (c ∉ ids))
                            (Z.of_nat <$> seq 1 (S (List.length ids)))).
Global Arguments allocate_rowid : simpl never.

(** The first row of the products table under key [k].  The column holds
    signed 64-bit numbers only, so there is no row under any other key. *)
Definition select_product (k : Z) (d : Database) : option ProductORM.t :=
  if in_int64 k then List.find (has_id (Some k)) (products d) else None.

(** The UNIQUE index on [products.name] compares names exactly. *)
Definition name_taken (n : string) (rows : list ProductORM.t) : bool :=
  existsb (λ r, String.eqb (ProductORM.name r) n) rows.

(** INSERT INTO products.  Binding the stock comes first and raises
    OverflowError when it does not fit; then the UNIQUE index refuses a
    name that is in the table with IntegrityError. *)
Definition insert_product (p : ProductORM.t) (d : Database)
  : outcome (ProductORM.t * Database) :=
  if negb (in_int64 (ProductORM.stock p)) then Raise OverflowError
  else if name_taken (ProductORM.name p) (products d) then Raise IntegrityError
  else
    let p' := ProductORM.set_id
                (Some (allocate_rowid (omap ProductORM.id (products d)))) p in
    Return (p', mkDatabase (products d ++ [p']) (transactions d)).

(** UPDATE products SET ... WHERE id = p.id, for a row [p] loaded as [old].
    Only the columns whose value changed are written: a new stock is bound,
    and raises OverflowError when it does not fit, and the UNIQUE index is
    consulted when the name column is written. *)
Definition update_product_row (old p : ProductORM.t) (d : Database)
  : outcome Database :=
  if negb (ProductORM.stock old =? ProductORM.stock p)
     && negb (in_int64 (ProductORM.stock p))
  then Raise OverflowError
  else if negb (String.eqb (ProductORM.name old) (ProductORM.name p))
          && name_taken (ProductORM.name p)
               (List.filter (λ r, negb (has_id (ProductORM.id p) r))
                            (products d))
  then Raise IntegrityError
  else Return (mkDatabase
                 (map (λ r, if has_id (ProductORM.id p) r then p else r)
                      (products d))
                 (transactions d)).

(** INSERT INTO transactions.  Binding [product_id] and [quantity] raises
    OverflowError when one of them does not fit; [product_id] is NOT
    NULL. *)
Definition insert_transaction (x : TransactionORM.t) (d : Database)
  : outcome (TransactionORM.t * Database) :=
  if negb (from_option in_int64 true (TransactionORM.product_id x)
           && in_int64 (TransactionORM.quantity x))
  then Raise OverflowError
  else
    match TransactionORM.product_id x with
    | None => Raise IntegrityError
    | Some _ =>
      let x' := TransactionORM.set_id
                  (Some (allocate_rowid
                           (omap TransactionORM.id (transactions d)))) x in
      Return (x', mkDatabase (products d) (transactions d ++ [x']))
    end.

(** ** Session operations *)

(** [db.commit()] runs the pending statements as one database
    transaction: it is applied whole, or the database is left as it was
    and the exception of the failing statement is raised. *)
Definition commit {A : Type} (work : Database → outcome (A * Database)) : M A :=
  λ w, match work (db w) with
       | Return (a, d') => (Return a, mkWorld d' (clock_reads w))
       | Raise e => (Raise e, w)
       end.

(** [db.rollback()]: nothing of a failed commit reached the tables. *)
Definition rollback : M unit := mret tt.

(** [db.query(ProductORM).filter(ProductORM.id == k).first()]: the key is
    bound to the SELECT, which raises OverflowError when it does not
    fit. *)
Definition query_product_first (k : Z) : M (option ProductORM.t) :=
  λ w, if in_int64 k then (Return (select_product k (db w)), w)
       else (Raise OverflowError, w).

Section Handlers.

(** The wall clock: [clock n] is what the n-th call of
    [datetime.utcnow()] returns. *)
Context (clock : nat → datetime).

Definition utcnow : M datetime :=
  λ w, (Return (clock (clock_reads w)), mkWorld (db w) (S (clock_reads w))).

(** [purchase], lines 221-262. *)
Definition purchase (payload : TransactionCreate.t) : M TransactionOut.t :=
  if negb (String.eqb (TransactionCreate.type payload) "purchase"
           || String.eqb (TransactionCreate.type payload) "sale")
  then raise InvalidKind
  else
    found ← query_product_first (TransactionCreate.product_id payload);
    match found with
    | None => raise ProductNotFound
    | Some product =>
      let qty := Z.pos (TransactionCreate.quantity payload) in
      if String.eqb (TransactionCreate.type payload) "sale"
         && (ProductORM.stock product <? qty)
      then raise InsufficientStock
      else
        (* Adjust stock *)
        let product1 :=
          if String.eqb (TransactionCreate.type payload) "purchase"
          then ProductORM.set_stock (ProductORM.stock product + qty) product
          else ProductORM.set_stock (ProductORM.stock product - qty) product in
        now ← utcnow;
        let product2 := ProductORM.set_updated_at now product1 in
        now' ← utcnow;
        let tx := TransactionORM.mk None
                    (ProductORM.id product2)
                    (TransactionCreate.type payload)
                    qty
                    (TransactionCreate.unit_price payload)
                    (TransactionCreate.note payload)
                    now' in
        (* db.add(tx); db.add(product); db.commit(); db.refresh(tx) *)
        tx' ← commit (λ d,
                 '(tx', d1) ← insert_transaction tx d;
                 d2 ← update_product_row product product2 d1;
                 Return (tx', d2));
        mret (TransactionOut.mk
                (TransactionORM.id tx')
                (TransactionORM.product_id tx')
                (TransactionORM.type tx')
                (TransactionORM.quantity tx')
                (TransactionORM.unit_price tx')
                (TransactionORM.note tx')
                (TransactionORM.created_at tx')
                (Some (ProductORM.name product2)))
    end.

(** [create_product], lines 149-167. *)
Definition create_product (payload : ProductCreate.t) : M ProductORM.t :=
  created ← utcnow;
  updated ← utcnow;
  let product := ProductORM.mk None
                   (strip (ProductCreate.name payload))
                   (match ProductCreate.category payload with
                    | Some EmptyString => None      (* payload.category or None *)
                    | c => c
                    end)
                   (ProductCreate.price payload)
                   (ProductCreate.stock payload)
                   (ProductCreate.description payload)
                   created
                   updated in
  (* db.add(product); try: db.commit(); db.refresh(product) *)
  try_except_IntegrityError
    (commit (insert_product product))
    (rollback;; raise DuplicateName).

(** [update_product], lines 169-191. *)
Definition update_product (product_id : Z) (payload : ProductUpdate.t)
  : M ProductORM.t :=
  found ← query_product_first product_id;
  match found with
  | None => raise ProductNotFound
  | Some product =>
    let product1 := match ProductUpdate.name payload with
                    | Some n => ProductORM.set_name (strip n) product
                    | None => product
                    end in
    let product2 := match ProductUpdate.category payload with
                    | Some c => ProductORM.set_category (Some c) product1
                    | None => product1
                    end in
    let product3 := match ProductUpdate.price payload with
                    | Some v => ProductORM.set_price v product2
                    | None => product2
                    end in
    let product4 := match ProductUpdate.stock payload with
                    | Some v => ProductORM.set_stock v product3
                    | None => product3
                    end in
    let product5 := match ProductUpdate.description payload with
                    | Some v => ProductORM.set_description (Some v) product4
                    | None => product4
                    end in
    now ← utcnow;
    let product6 := ProductORM.set_updated_at now product5 in
    try_except_IntegrityError
      (commit (λ d, d' ← update_product_row product product6 d;
                    Return (product6, d')))
      (rollback;; raise DuplicateName)
  end.

End Handlers.

(** ** Observations the specification speaks about *)

(** The stock of the product with key [k], when there is one. *)
Definition stock_of (k : Z) (d : Database) : option Z :=
  ProductORM.stock <$> select_product k d.

(** The number of records in the ledger. *)
Definition ledger_count (d : Database) : nat := List.length (transactions d).

(** A run of calls to [purchase] that all succeed: the world after the
    last one, None as soon as one of them raises. *)
Fixpoint apply_all (clock : nat → datetime)
    (payloads : list TransactionCreate.t) (w : World) : option World :=
  match payloads with
  | [] => Some w
  | payload :: rest =>
    match purchase clock payload w with
    | (Return _, w') => apply_all clock rest w'
    | (Raise _, _) => None
    end
  end.

(** A database with no rows, and a clock that advances by one unit at
    every reading. *)
Definition empty_db : Database := mkDatabase [] [].
Definition ticking_clock : nat → datetime := Z.of_nat.

(** ** A small shop to run the handlers on *)

Definition milk : ProductORM.t :=
  ProductORM.mk (Some 1) "Milk" (Some "Dairy") 150 5 None 0 1.
Definition bread : ProductORM.t :=
  ProductORM.mk (Some 2) "Bread" None 250 0 None 2 3.

(** Two products, an empty ledger, and a clock that has been read four
    times (twice for each product created). *)
Definition shop : World := mkWorld (mkDatabase [milk; bread] []) 4.

Definition buy_milk : TransactionCreate.t :=
  TransactionCreate.mk 1 "purchase" 10 100 (Some "restock").
Definition sell_milk : TransactionCreate.t :=
  TransactionCreate.mk 1 "sale" 10 100 None.
Definition oversell_milk : TransactionCreate.t :=
  TransactionCreate.mk 1 "sale" 6 100 None.

(** The catalog on opening day: no rows, clock never read. *)
Definition opening : World := mkWorld empty_db 0.

Definition new_milk : ProductCreate.t :=
  ProductCreate.mk "Milk" (Some "Dairy") 150 5 None I I I.
Definition new_milk_padded : ProductCreate.t :=
  ProductCreate.mk "  Milk " (Some "Dairy") 150 5 None I I I.
Definition rename_to_padded_oat_milk : ProductUpdate.t :=
  ProductUpdate.mk (Some " Oat milk  ") None None None None I I I.

Definition new_milk_padded_overstocked : ProductCreate.t :=
  ProductCreate.mk "  Milk " (Some "Dairy") 150 (2 ^ 63) None I I I.

(** ** The remaining routes *)

(** [ORDER BY created_at DESC]: the newer row comes first.  SQL leaves
    the order of rows with equal timestamps open; nothing below depends on
    how the sort used here settles it. *)
Definition newer_product (a b : ProductORM.t) : Prop :=
  ProductORM.created_at b <= ProductORM.created_at a.

Definition newer_transaction (a b : TransactionORM.t) : Prop :=
  TransactionORM.created_at b <= TransactionORM.created_at a.

Global Instance newer_product_dec (a b : ProductORM.t) :
  Decision (newer_product a b) := Z_le_dec _ _.

Global Instance newer_transaction_dec (a b : TransactionORM.t) :
  Decision (newer_transaction a b) := Z_le_dec _ _.

(** [list_products], lines 144-147. *)
Definition list_products : M (list ProductORM.t) :=
  λ w, (Return (merge_sort newer_product (products (db w))), w).

(** [db.delete(product)] with the relationship's cascade "all,
    delete-orphan": the transactions the relationship loads, those whose
    [product_id] is the product's key, are deleted with the product's row. *)
Definition delete_product_rows (p : ProductORM.t) (d : Database) : Database :=
  mkDatabase
    (filter (λ r, ProductORM.id r ≠ ProductORM.id p) (products d))
    (filter (λ x, TransactionORM.product_id x ≠ ProductORM.id p)
            (transactions d)).

(** [delete_product], lines 193-200. *)
Definition delete_product (product_id : Z) : M (list (string * string)) :=
  found ← query_product_first product_id;
  match found with
  | None => raise ProductNotFound
  | Some product =>
    commit (λ d, Return (tt, delete_product_rows product d));;
    mret [("status", "ok")]
  end.

(** [t.product]: the row the many-to-one relationship loads for a
    transaction, None when there is none. *)
Definition transaction_product (x : TransactionORM.t) (d : Database)
  : option ProductORM.t :=
  k ← TransactionORM.product_id x; select_product k d.

(** [list_transactions], lines 203-219. *)
Definition list_transactions : M (list TransactionOut.t) :=
  λ w,
    let txs := merge_sort newer_transaction (transactions (db w)) in
    (Return
       (map (λ t, TransactionOut.mk
                    (TransactionORM.id t)
                    (TransactionORM.product_id t)
                    (TransactionORM.type t)
                    (TransactionORM.quantity t)
                    (TransactionORM.unit_price t)
                    (TransactionORM.note t)
                    (TransactionORM.created_at t)
                    (ProductORM.name <$> transaction_product t (db w)))
            txs),
     w).

(** ** Invariants of the two tables *)

(** No two rows of the products table share a key or a name. *)
Definition keys_and_names_unique (d : Database) : Prop :=
  NoDup (map ProductORM.id (products d))
  ∧ NoDup (map ProductORM.name (products d)).

(** Every ledger record refers to a product that is in the table. *)
Definition no_orphans (d : Database) : Prop :=
  ∀ x, x ∈ transactions d →
    ∃ k, TransactionORM.product_id x = Some k
         ∧ is_Some (select_product k d).

(** No row of the products table has a negative stock. *)
Definition stocks_nonneg (d : Database) : Prop :=
  ∀ r, r ∈ products d → 0 <= ProductORM.stock r.

(** What a ledger record does to its product's stock, and the sum of that
    over the records of product [k]. *)
Definition signed_quantity (x : TransactionORM.t) : Z :=
  if String.eqb (TransactionORM.type x) "purchase"
  then TransactionORM.quantity x
  else - TransactionORM.quantity x.

Definition net_movement (k : Z) (txs : list TransactionORM.t) : Z :=
  foldr (λ x acc, if bool_decide (TransactionORM.product_id x = Some k)
                  then signed_quantity x + acc else acc)
        0 txs.

(** The shop after milk has been bought and sold once. *)
Definition traded_shop : World :=
  mkWorld
    (mkDatabase
       [ProductORM.mk (Some 1) "Milk" (Some "Dairy") 150 5 None 0 6; bread]
       [TransactionORM.mk (Some 1) (Some 1) "purchase" 10 100
                          (Some "restock") 5;
        TransactionORM.mk (Some 2) (Some 1) "sale" 10 100 None 7])
    8.

Definition buy_bread : TransactionCreate.t :=
  TransactionCreate.mk 2 "purchase" 4 250 None.
Definition rename_milk_to_bread : ProductUpdate.t :=
  ProductUpdate.mk (Some "Bread ") None None None None I I I.
Definition rename_to_own_name_padded : ProductUpdate.t :=
  ProductUpdate.mk (Some "  Milk ") None None None None I I I.
Definition rename_to_own_name : ProductUpdate.t :=
  ProductUpdate.mk (Some "Milk") None None None None I I I.
Definition restock_only : ProductUpdate.t :=
  ProductUpdate.mk None None None (Some 40) None I I I.
Definition overstock_only : ProductUpdate.t :=
  ProductUpdate.mk None None None (Some (2 ^ 63)) None I I I.
Definition touch_only : ProductUpdate.t :=
  ProductUpdate.mk None None None None None I I I.
Definition new_blank : ProductCreate.t :=
  ProductCreate.mk "   " (Some "") 0 0 None I I I.
Definition new_eggs : ProductCreate.t :=
  ProductCreate.mk "Eggs" None 30 12 (Some "free range") I I I.

(** * Properties *)

(** ** Strings and kinds *)

Lemma eqb_string_true (a b : string) : String.eqb a b = true ↔ a = b.
Proof. apply String.eqb_eq. Qed.

Lemma eqb_string_false (a b : string) : String.eqb a b = false ↔ a ≠ b.
Proof. apply String.eqb_neq. Qed.

(** ** Looking a product up by key *)

(** Rewrites with the facts at hand that say a key fits SQLite's INTEGER. *)
Ltac in_range :=
  repeat match goal with
  | H : in_int64 ?k = true |- context [in_int64 ?k] => rewrite H
  | H : in_int64 ?k = true, H' : context [in_int64 ?k] |- _ =>
      rewrite H in H'
  end.

Lemma has_id_true (k : option Z) (p : ProductORM.t) :
  has_id k p = true ↔ ProductORM.id p = k.
Proof. unfold has_id. apply bool_decide_eq_true. Qed.

Lemma has_id_false (k : option Z) (p : ProductORM.t) :
  has_id k p = false ↔ ProductORM.id p ≠ k.
Proof. unfold has_id. apply bool_decide_eq_false. Qed.

Lemma select_product_in_range (k : Z) (d : Database) (p : ProductORM.t) :
  select_product k d = Some p → in_int64 k = true.
Proof. unfold select_product. by destruct (in_int64 k). Qed.

Lemma select_product_id (k : Z) (d : Database) (p : ProductORM.t) :
  select_product k d = Some p → ProductORM.id p = Some k.
Proof.
  unfold select_product. destruct (in_int64 k); [|done]. intros Hfind.
  apply find_some in Hfind as [_ Hid]. by apply has_id_true.
Qed.

Lemma in_int64_true (n : Z) :
  in_int64 n = true ↔ INT64_MIN <= n <= INT64_MAX.
Proof. unfold in_int64. rewrite andb_true_iff, !Z.leb_le. done. Qed.

(** Overwriting every row of key [k] with a row of key [k] leaves the
    lookup of any other key alone, and makes the lookup of [k] find the
    new row. *)
Lemma find_overwrite_ne (k j : Z) (p' : ProductORM.t) (rows : list ProductORM.t) :
  ProductORM.id p' = Some k → j ≠ k →
  List.find (has_id (Some j))
            (map (λ r, if has_id (Some k) r then p' else r) rows)
  = List.find (has_id (Some j)) rows.
Proof.
  intros Hid Hne. induction rows as [|r rows IH]; [done|]. simpl.
  destruct (has_id (Some k) r) eqn:Hk.
  - apply has_id_true in Hk.
    assert (has_id (Some j) p' = false) as ->
      by (apply has_id_false; congruence).
    assert (has_id (Some j) r = false) as ->
      by (apply has_id_false; congruence).
    exact IH.
  - destruct (has_id (Some j) r); [done | exact IH].
Qed.

Lemma find_overwrite_eq (k : Z) (p p' : ProductORM.t) (rows : list ProductORM.t) :
  ProductORM.id p' = Some k →
  List.find (has_id (Some k)) rows = Some p →
  List.find (has_id (Some k))
            (map (λ r, if has_id (Some k) r then p' else r) rows)
  = Some p'.
Proof.
  intros Hid. induction rows as [|r rows IH]; [done|]. simpl.
  destruct (has_id (Some k) r) eqn:Hk.
  - intros _. by rewrite (proj2 (has_id_true _ _) Hid).
  - rewrite Hk. exact IH.
Qed.

(** ** What a call to [purchase] does *)

Section PurchaseFacts.

Context (clock : nat → datetime).

(** The whole of [purchase] as one case analysis: the kind, the key of the
    query, the product, the stock, and then the two integers the commit
    writes. *)
Lemma purchase_run (payload : TransactionCreate.t) (w : World) :
  let k := TransactionCreate.product_id payload in
  let kind := TransactionCreate.type payload in
  let qty := Z.pos (TransactionCreate.quantity payload) in
  purchase clock payload w =
    if negb (String.eqb kind "purchase" || String.eqb kind "sale")
    then (Raise InvalidKind, w)
    else if negb (in_int64 k) then (Raise OverflowError, w)
    else
      match select_product k (db w) with
      | None => (Raise ProductNotFound, w)
      | Some product =>
        let stock' := if String.eqb kind "purchase"
                      then ProductORM.stock product + qty
                      else ProductORM.stock product - qty in
        let product' :=
          ProductORM.mk (ProductORM.id product) (ProductORM.name product)
            (ProductORM.category product) (ProductORM.price product)
            stock'
            (ProductORM.description product) (ProductORM.created_at product)
            (clock (clock_reads w)) in
        let key := Some (allocate_rowid
                           (omap TransactionORM.id (transactions (db w)))) in
        if String.eqb kind "sale" && (ProductORM.stock product <? qty)
        then (Raise InsufficientStock, w)
        else if negb (in_int64 qty && in_int64 stock')
        then (Raise OverflowError, mkWorld (db w) (S (S (clock_reads w))))
        else
          (Return (TransactionOut.mk key (Some k) kind qty
                     (TransactionCreate.unit_price payload)
                     (TransactionCreate.note payload)
                     (clock (S (clock_reads w)))
                     (Some (ProductORM.name product))),
           mkWorld
             (mkDatabase
                (map (λ r, if has_id (Some k) r then product' else r)
                     (products (db w)))
                (transactions (db w)
                   ++ [TransactionORM.mk key (Some k) kind qty
                         (TransactionCreate.unit_price payload)
                         (TransactionCreate.note payload)
                         (clock (S (clock_reads w)))]))
             (S (S (clock_reads w))))
      end.
Proof.
  cbn zeta. unfold purchase.
  destruct (negb _); [done|].
  unfold mbind, M_bind, query_product_first.
  destruct (in_int64 (TransactionCreate.product_id payload)) eqn:Hrange;
    [|done].
  cbn. destruct (select_product _ _) as [product|] eqn:Hsel; [|done].
  pose proof (select_product_id _ _ _ Hsel) as Hid.
  destruct (_ && _) eqn:Hstock; [done|].
  assert ((ProductORM.stock product
           =? (if String.eqb (TransactionCreate.type payload) "purchase"
               then ProductORM.stock product
                    + Z.pos (TransactionCreate.quantity payload)
               else ProductORM.stock product
                    - Z.pos (TransactionCreate.quantity payload))) = false)
    as Hmoved.
  { apply Z.eqb_neq.
    destruct (String.eqb (TransactionCreate.type payload) "purchase"); lia. }
  unfold utcnow, commit, insert_transaction, update_product_row.
  destruct (String.eqb (TransactionCreate.type payload) "purchase") eqn:Hk;
    cbn in Hmoved |- *; rewrite Hid; cbn; rewrite Hrange; clear Hrange; cbn;
    (destruct (in_int64 (Z.pos _)); cbn; [|done]);
    rewrite Hmoved; cbn;
    (destruct (in_int64 _); cbn; [|done]);
    rewrite String.eqb_refl; cbn;
    unfold ProductORM.set_updated_at, ProductORM.set_stock,
      TransactionORM.set_id; cbn; rewrite ?Hid; reflexivity.
Qed.

(** A call that returns has found its product, passed the stock check,
    and left behind exactly the world described here. *)
Lemma purchase_Return_inv (payload : TransactionCreate.t) (w w' : World)
    (out : TransactionOut.t) :
  purchase clock payload w = (Return out, w') →
  ∃ product : ProductORM.t,
    let qty := Z.pos (TransactionCreate.quantity payload) in
    let kind := TransactionCreate.type payload in
    let product' :=
      ProductORM.mk (ProductORM.id product) (ProductORM.name product)
        (ProductORM.category product) (ProductORM.price product)
        (if String.eqb kind "purchase"
         then ProductORM.stock product + qty
         else ProductORM.stock product - qty)
        (ProductORM.description product) (ProductORM.created_at product)
        (clock (clock_reads w)) in
    let tx :=
      TransactionORM.mk
        (Some (allocate_rowid (omap TransactionORM.id (transactions (db w)))))
        (Some (TransactionCreate.product_id payload))
        kind qty (TransactionCreate.unit_price payload)
        (TransactionCreate.note payload)
        (clock (S (clock_reads w))) in
    select_product (TransactionCreate.product_id payload) (db w) = Some product
    ∧ (kind = "purchase" ∨ kind = "sale" ∧ qty <= ProductORM.stock product)
    ∧ db w' = mkDatabase
                (map (λ r, if has_id (Some (TransactionCreate.product_id payload)) r
                           then product' else r)
                     (products (db w)))
                (transactions (db w) ++ [tx])
    ∧ clock_reads w' = S (S (clock_reads w))
    ∧ TransactionOut.created_at out = clock (S (clock_reads w)).
Proof.
  rewrite purchase_run. cbn zeta.
  destruct (negb _) eqn:Hkind; [discriminate|].
  apply negb_false_iff, orb_true_iff in Hkind.
  destruct (negb (in_int64 _)); [discriminate|].
  destruct (select_product _ _) as [product|] eqn:Hsel; [|discriminate].
  destruct (String.eqb _ "sale" && _) eqn:Hstock; [discriminate|].
  destruct (negb (in_int64 _ && _)); [discriminate|].
  intros [= <- <-]. exists product. split; [done|]. split; [|done].
  destruct Hkind as [Hk|Hk]; apply eqb_string_true in Hk; [by left|right].
  split; [exact Hk|]. rewrite Hk in Hstock. cbn in Hstock.
  by apply Z.ltb_ge in Hstock.
Qed.

(** A call that raises has raised one of the handler's three errors
    before anything was read from the clock, or OverflowError from a
    statement that was given an integer SQLite cannot hold; the tables
    are as they were in every case. *)
Lemma purchase_Raise_inv (payload : TransactionCreate.t) (w w' : World)
    (e : exn) :
  purchase clock payload w = (Raise e, w') →
  db w' = db w
  ∧ ((e = InvalidKind ∨ e = ProductNotFound ∨ e = InsufficientStock) ∧ w' = w
     ∨ e = OverflowError).
Proof.
  rewrite purchase_run. cbn zeta.
  destruct (negb _); [intros [= <- <-]; auto 10|].
  destruct (negb (in_int64 _)); [intros [= <- <-]; auto 10|].
  destruct (select_product _ _) as [product|]; [|intros [= <- <-]; auto 10].
  destruct (String.eqb _ "sale" && _); [intros [= <- <-]; auto 10|].
  destruct (negb (in_int64 _ && _)); [intros [= <- <-]; auto 10|discriminate].
Qed.

(** A call of a valid kind on an existing product returns, provided a
    sale does not ask for more than the stock and the quantity and the
    new stock fit SQLite's INTEGER. *)
Lemma purchase_returns (payload : TransactionCreate.t) (w : World)
    (product : ProductORM.t) :
  select_product (TransactionCreate.product_id payload) (db w) = Some product →
  TransactionCreate.type payload = "purchase"
    ∧ in_int64 (ProductORM.stock product
                + Z.pos (TransactionCreate.quantity payload)) = true
  ∨ TransactionCreate.type payload = "sale"
    ∧ Z.pos (TransactionCreate.quantity payload) <= ProductORM.stock product
    ∧ in_int64 (ProductORM.stock product
                - Z.pos (TransactionCreate.quantity payload)) = true →
  in_int64 (Z.pos (TransactionCreate.quantity payload)) = true →
  ∃ (out : TransactionOut.t) (w' : World),
    purchase clock payload w = (Return out, w').
Proof.
  intros Hsel Hkind Hqty. rewrite purchase_run. cbn zeta.
  rewrite (select_product_in_range _ _ _ Hsel), Hsel, Hqty. cbn.
  destruct Hkind as [[-> Hfit]|(-> & Hle & Hfit)]; cbn; rewrite Hfit; cbn.
  - eauto.
  - rewrite (proj2 (Z.ltb_ge _ _) Hle). eauto.
Qed.

End PurchaseFacts.

(** ** The transaction processor's contract *)

(** C1 (atomicity).  A call to [purchase] that fails, whatever the reason,
    leaves the whole database as it was: the stock of every product and
    the number of ledger records are those from before the call.  The
    failures are the invalid kind, the missing product, the insufficient
    stock, and the OverflowError of a statement that was given an integer
    outside SQLite's 64-bit range (the key in the query; the quantity or
    the new stock in the commit, which then writes nothing). *)
Theorem purchase_failure_is_atomic (clock : nat → datetime)
    (payload : TransactionCreate.t) (w w' : World) (e : exn) :
  purchase clock payload w = (Raise e, w') →
  db w' = db w
  ∧ (∀ k, stock_of k (db w') = stock_of k (db w))
  ∧ ledger_count (db w') = ledger_count (db w)
  ∧ (e = InvalidKind ∨ e = ProductNotFound ∨ e = InsufficientStock
     ∨ e = OverflowError).
Proof.
  intros Hrun. apply purchase_Raise_inv in Hrun as [Hdb He].
  rewrite Hdb. repeat (split; [done|]).
  destruct He as [[[->|[->| ->]] _]| ->]; auto.
Qed.

Lemma purchase_failure_is_atomic_witness :
  (db shop = db shop
   ∧ (∀ k, stock_of k (db shop) = stock_of k (db shop))
   ∧ ledger_count (db shop) = ledger_count (db shop)
   ∧ (InsufficientStock = InvalidKind ∨ InsufficientStock = ProductNotFound
      ∨ InsufficientStock = InsufficientStock
      ∨ InsufficientStock = OverflowError))
  ∧ (db (purchase ticking_clock
           (TransactionCreate.mk 1 "purchase" (2 ^ 63) 100 None) shop).2
     = db shop
     ∧ (∀ k, stock_of k
               (db (purchase ticking_clock
                      (TransactionCreate.mk 1 "purchase" (2 ^ 63) 100 None)
                      shop).2)
             = stock_of k (db shop))
     ∧ ledger_count
         (db (purchase ticking_clock
                (TransactionCreate.mk 1 "purchase" (2 ^ 63) 100 None) shop).2)
       = ledger_count (db shop)
     ∧ (OverflowError = InvalidKind ∨ OverflowError = ProductNotFound
        ∨ OverflowError = InsufficientStock ∨ OverflowError = OverflowError)).
Proof.
  split.
  - apply (purchase_failure_is_atomic ticking_clock oversell_milk shop shop
             InsufficientStock).
    reflexivity.
  - apply (purchase_failure_is_atomic ticking_clock
             (TransactionCreate.mk 1 "purchase" (2 ^ 63) 100 None) shop
             (purchase ticking_clock
                (TransactionCreate.mk 1 "purchase" (2 ^ 63) 100 None) shop).2
             OverflowError).
    vm_compute. reflexivity.
Defined.

(** C2 (insufficient-stock guard).  A sale on an existing product for more
    than its current stock raises InsufficientStock, and the world after
    the call is the world before it: nothing was written. *)
Theorem sale_beyond_stock_is_refused (clock : nat → datetime)
    (payload : TransactionCreate.t) (w : World) (product : ProductORM.t) :
  TransactionCreate.type payload = "sale" →
  select_product (TransactionCreate.product_id payload) (db w) = Some product →
  ProductORM.stock product < Z.pos (TransactionCreate.quantity payload) →
  purchase clock payload w = (Raise InsufficientStock, w).
Proof.
  intros Hkind Hsel Hlt. rewrite purchase_run. cbn zeta.
  rewrite Hkind, (select_product_in_range _ _ _ Hsel), Hsel. cbn.
  by rewrite (proj2 (Z.ltb_lt _ _) Hlt).
Qed.

Lemma sale_beyond_stock_is_refused_witness :
  purchase ticking_clock oversell_milk shop = (Raise InsufficientStock, shop).
Proof.
  apply (sale_beyond_stock_is_refused ticking_clock oversell_milk shop milk).
  - reflexivity.
  - reflexivity.
  - reflexivity.
Defined.

(** One successful call keeps a non-negative stock non-negative. *)
Lemma purchase_keeps_stock_nonneg (clock : nat → datetime)
    (payload : TransactionCreate.t) (w w' : World) (out : TransactionOut.t)
    (k : Z) (s : Z) :
  purchase clock payload w = (Return out, w') →
  stock_of k (db w) = Some s → 0 <= s →
  ∃ s', stock_of k (db w') = Some s' ∧ 0 <= s'.
Proof.
  intros Hrun Hs Hnonneg.
  apply purchase_Return_inv in Hrun as (product & Hsel & Hkind & -> & _).
  pose proof (select_product_id _ _ _ Hsel) as Hid.
  pose proof (select_product_in_range _ _ _ Hsel) as Hrange.
  unfold stock_of, select_product in *. cbn.
  destruct (decide (k = TransactionCreate.product_id payload)) as [->|Hne].
  - rewrite Hrange in *.
    erewrite find_overwrite_eq; [|exact Hid|exact Hsel]. cbn.
    rewrite Hsel in Hs. injection Hs as <-.
    eexists; split; [reflexivity|].
    destruct Hkind as [->|[-> Hle]]; cbn; lia.
  - destruct (in_int64 k); [|done].
    rewrite find_overwrite_ne; [|exact Hid|exact Hne]. eauto.
Qed.

(** C3 (invariant).  A product whose stock is non-negative still has a
    non-negative stock after any finite run of successful calls to
    [purchase], whichever products the calls are for. *)
Theorem stock_stays_nonneg (clock : nat → datetime)
    (payloads : list TransactionCreate.t) (w w' : World) (k : Z) (s : Z) :
  apply_all clock payloads w = Some w' →
  stock_of k (db w) = Some s → 0 <= s →
  ∃ s', stock_of k (db w') = Some s' ∧ 0 <= s'.
Proof.
  revert w s. induction payloads as [|payload rest IH]; intros w s Hrun Hs Hnonneg.
  - injection Hrun as <-. eauto.
  - cbn in Hrun.
    destruct (purchase clock payload w) as [[out|e] w1] eqn:Hstep; [|done].
    destruct (purchase_keeps_stock_nonneg _ _ _ _ _ _ _ Hstep Hs Hnonneg)
      as (s1 & Hs1 & Hnonneg1).
    exact (IH w1 s1 Hrun Hs1 Hnonneg1).
Qed.

Lemma stock_stays_nonneg_witness :
  ∃ s', stock_of 1 (db (mkWorld
                          (mkDatabase
                             [ProductORM.mk (Some 1) "Milk" (Some "Dairy") 150 5
                                            None 0 10;
                              bread]
                             [TransactionORM.mk (Some 1) (Some 1) "purchase" 10
                                                100 (Some "restock") 5;
                              TransactionORM.mk (Some 2) (Some 1) "sale" 10
                                                100 None 7;
                              TransactionORM.mk (Some 3) (Some 1) "purchase" 10
                                                100 (Some "restock") 9;
                              TransactionORM.mk (Some 4) (Some 1) "sale" 10
                                                100 None 11])
                          12))
        = Some s' ∧ 0 <= s'.
Proof.
  refine (stock_stays_nonneg ticking_clock
            [buy_milk; sell_milk; buy_milk; sell_milk] shop _ 1 5 _ _ _).
  - vm_compute. reflexivity.
  - reflexivity.
  - lia.
Defined.

(** C4 (effect).  A successful call on a product of stock [s] with quantity
    [q] leaves the stock at [s + q] for a purchase and at [s - q] for a
    sale, and the ledger after the call is the ledger before it followed
    by one new record that carries the call's kind, quantity, unit price
    and note. *)
Theorem purchase_adjusts_stock_and_appends (clock : nat → datetime)
    (payload : TransactionCreate.t) (w w' : World) (out : TransactionOut.t) :
  purchase clock payload w = (Return out, w') →
  ∃ (s : Z) (tx : TransactionORM.t),
    let k := TransactionCreate.product_id payload in
    let q := Z.pos (TransactionCreate.quantity payload) in
    stock_of k (db w) = Some s
    ∧ (TransactionCreate.type payload = "purchase"
         ∧ stock_of k (db w') = Some (s + q)
       ∨ TransactionCreate.type payload = "sale"
         ∧ stock_of k (db w') = Some (s - q))
    ∧ transactions (db w') = (transactions (db w) ++ [tx])%list
    ∧ TransactionORM.type tx = TransactionCreate.type payload
    ∧ TransactionORM.quantity tx = q
    ∧ TransactionORM.unit_price tx = TransactionCreate.unit_price payload
    ∧ TransactionORM.note tx = TransactionCreate.note payload.
Proof.
  intros Hrun.
  apply purchase_Return_inv in Hrun as (product & Hsel & Hkind & Hdb & _).
  pose proof (select_product_id _ _ _ Hsel) as Hid.
  pose proof (select_product_in_range _ _ _ Hsel) as Hrange.
  eexists (ProductORM.stock product), _. cbn zeta.
  rewrite Hdb. unfold stock_of, select_product in *; in_range. cbn.
  erewrite find_overwrite_eq; [|exact Hid|exact Hsel].
  rewrite Hsel. cbn.
  split; [reflexivity|]. split; [|by repeat split].
  destruct Hkind as [Hk|[Hk _]]; rewrite Hk; cbn; auto.
Qed.

Lemma purchase_adjusts_stock_and_appends_witness :
  ∃ (s : Z) (tx : TransactionORM.t),
    stock_of 1 (db shop) = Some s
    ∧ ("purchase" = "purchase"
         ∧ stock_of 1 (db (purchase ticking_clock buy_milk shop).2) = Some (s + 10)
       ∨ "purchase" = "sale"
         ∧ stock_of 1 (db (purchase ticking_clock buy_milk shop).2) = Some (s - 10))
    ∧ transactions (db (purchase ticking_clock buy_milk shop).2)
      = (transactions (db shop) ++ [tx])%list
    ∧ TransactionORM.type tx = "purchase"
    ∧ TransactionORM.quantity tx = 10
    ∧ TransactionORM.unit_price tx = 100
    ∧ TransactionORM.note tx = Some "restock".
Proof.
  refine (purchase_adjusts_stock_and_appends ticking_clock buy_milk shop
            (purchase ticking_clock buy_milk shop).2
            (TransactionOut.mk (Some 1) (Some 1) "purchase" 10 100
               (Some "restock") 5 (Some "Milk")) _).
  vm_compute. reflexivity.
Defined.

(** One successful call, as far as the stock of its product and the size
    of the ledger go. *)
Lemma purchase_stock_step (clock : nat → datetime)
    (payload : TransactionCreate.t) (w w' : World) (out : TransactionOut.t) :
  purchase clock payload w = (Return out, w') →
  ∃ s : Z,
    let k := TransactionCreate.product_id payload in
    let q := Z.pos (TransactionCreate.quantity payload) in
    stock_of k (db w) = Some s
    ∧ stock_of k (db w')
      = Some (if String.eqb (TransactionCreate.type payload) "purchase"
              then s + q else s - q)
    ∧ ledger_count (db w') = S (ledger_count (db w)).
Proof.
  intros Hrun.
  apply purchase_Return_inv in Hrun as (product & Hsel & _ & Hdb & _).
  pose proof (select_product_id _ _ _ Hsel) as Hid.
  pose proof (select_product_in_range _ _ _ Hsel) as Hrange.
  exists (ProductORM.stock product). cbn zeta.
  rewrite Hdb. unfold stock_of, ledger_count, select_product in *; in_range. cbn.
  erewrite find_overwrite_eq; [|exact Hid|exact Hsel].
  rewrite Hsel, length_app. cbn.
  split; [reflexivity|]. split; [reflexivity|lia].
Qed.

(** C5 (symmetry).  When a purchase of [q] units of a product and then a
    sale of [q] units of the same product both succeed, the product's stock
    after the two calls is its stock before them and the ledger holds
    exactly two more records. *)
Theorem purchase_then_sale_restores_stock (clock : nat → datetime)
    (k : Z) (q : positive) (price1 price2 : Decimal)
    (note1 note2 : option string)
    (w w1 w2 : World) (out1 out2 : TransactionOut.t) :
  purchase clock (TransactionCreate.mk k "purchase" q price1 note1) w
    = (Return out1, w1) →
  purchase clock (TransactionCreate.mk k "sale" q price2 note2) w1
    = (Return out2, w2) →
  stock_of k (db w2) = stock_of k (db w)
  ∧ ledger_count (db w2) = (ledger_count (db w) + 2)%nat.
Proof.
  intros Hbuy Hsell.
  apply purchase_stock_step in Hbuy as (s & Hs & Hs1 & Hl1).
  apply purchase_stock_step in Hsell as (s1 & Hs1' & Hs2 & Hl2).
  cbn in *.
  rewrite Hs1 in Hs1'. injection Hs1' as <-.
  split.
  - rewrite Hs2, Hs. f_equal. lia.
  - rewrite Hl2, Hl1. lia.
Qed.

Lemma purchase_then_sale_restores_stock_witness :
  stock_of 1 (db (purchase ticking_clock sell_milk
                    (purchase ticking_clock buy_milk shop).2).2)
    = stock_of 1 (db shop)
  ∧ ledger_count (db (purchase ticking_clock sell_milk
                        (purchase ticking_clock buy_milk shop).2).2)
    = (ledger_count (db shop) + 2)%nat.
Proof.
  refine (purchase_then_sale_restores_stock ticking_clock 1 10 100 100
            (Some "restock") None shop
            (purchase ticking_clock buy_milk shop).2
            (purchase ticking_clock sell_milk
               (purchase ticking_clock buy_milk shop).2).2
            (TransactionOut.mk (Some 1) (Some 1) "purchase" 10 100
               (Some "restock") 5 (Some "Milk"))
            (TransactionOut.mk (Some 2) (Some 1) "sale" 10 100
               None 7 (Some "Milk")) _ _).
  - vm_compute. reflexivity.
  - vm_compute. reflexivity.
Defined.




(** C8 as the specification words it: after every successful call, the
    product's [updated_at] equals the new ledger record's [created_at].
    The handler reads the clock once for each, so a clock that moves
    between the two readings separates them: on [shop], buying milk stamps
    the product with reading 4 and the ledger record with reading 5. *)
Lemma one_operation_timestamp_counterexample :
  ¬ (∀ (clock : nat → datetime) (payload : TransactionCreate.t)
       (w w' : World) (out : TransactionOut.t)
       (product' : ProductORM.t) (tx : TransactionORM.t),
       purchase clock payload w = (Return out, w') →
       select_product (TransactionCreate.product_id payload) (db w')
         = Some product' →
       last (transactions (db w')) = Some tx →
       ProductORM.updated_at product' = TransactionORM.created_at tx).
Proof.
  intros Hclaim.
  specialize (Hclaim ticking_clock buy_milk shop
                (purchase ticking_clock buy_milk shop).2
                (TransactionOut.mk (Some 1) (Some 1) "purchase" 10 100
                   (Some "restock") 5 (Some "Milk"))
                (ProductORM.mk (Some 1) "Milk" (Some "Dairy") 150 15 None 0 4)
                (TransactionORM.mk (Some 1) (Some 1) "purchase" 10 100
                   (Some "restock") 5)
                eq_refl eq_refl eq_refl).
  discriminate Hclaim.
Qed.

(** C8 (amended).  A successful call reads the clock twice: the product's
    [updated_at] is the first reading, and the [created_at] of the new
    ledger record, which is also the one returned, is the second.  The
    two timestamps are equal exactly when the two readings are. *)
Theorem purchase_stamps_two_clock_readings (clock : nat → datetime)
    (payload : TransactionCreate.t) (w w' : World) (out : TransactionOut.t) :
  purchase clock payload w = (Return out, w') →
  ∃ (product' : ProductORM.t) (tx : TransactionORM.t),
    select_product (TransactionCreate.product_id payload) (db w')
      = Some product'
    ∧ last (transactions (db w')) = Some tx
    ∧ ProductORM.updated_at product' = clock (clock_reads w)
    ∧ TransactionORM.created_at tx = clock (S (clock_reads w))
    ∧ TransactionOut.created_at out = clock (S (clock_reads w))
    ∧ clock_reads w' = S (S (clock_reads w))
    ∧ (ProductORM.updated_at product' = TransactionORM.created_at tx
       ↔ clock (clock_reads w) = clock (S (clock_reads w))).
Proof.
  intros Hrun.
  apply purchase_Return_inv in Hrun
    as (product & Hsel & _ & Hdb & Hreads & Hout).
  pose proof (select_product_id _ _ _ Hsel) as Hid.
  pose proof (select_product_in_range _ _ _ Hsel) as Hrange.
  eexists _, _. rewrite Hdb. unfold select_product in *; in_range. cbn.
  erewrite find_overwrite_eq; [|exact Hid|exact Hsel].
  rewrite last_snoc. cbn. by repeat split.
Qed.

Lemma purchase_stamps_two_clock_readings_witness :
  ∃ (product' : ProductORM.t) (tx : TransactionORM.t),
    select_product 1 (db (purchase ticking_clock buy_milk shop).2)
      = Some product'
    ∧ last (transactions (db (purchase ticking_clock buy_milk shop).2))
      = Some tx
    ∧ ProductORM.updated_at product' = 4
    ∧ TransactionORM.created_at tx = 5
    ∧ 5 = 5
    ∧ clock_reads (purchase ticking_clock buy_milk shop).2 = 6%nat
    ∧ (ProductORM.updated_at product' = TransactionORM.created_at tx
       ↔ 4 = 5).
Proof.
  refine (purchase_stamps_two_clock_readings ticking_clock buy_milk shop
            (purchase ticking_clock buy_milk shop).2
            (TransactionOut.mk (Some 1) (Some 1) "purchase" 10 100
               (Some "restock") 5 (Some "Milk")) _).
  vm_compute. reflexivity.
Defined.

(** C9 (frame).  A successful call changes nothing of its product but
    [stock] and [updated_at]; every row of the products table with another
    key stays in place as it was, so every other product reads as before;
    and every ledger record from before the call is still in its place. *)
Theorem purchase_frame (clock : nat → datetime)
    (payload : TransactionCreate.t) (w w' : World) (out : TransactionOut.t) :
  purchase clock payload w = (Return out, w') →
  ∃ product product' : ProductORM.t,
    let k := TransactionCreate.product_id payload in
    select_product k (db w) = Some product
    ∧ select_product k (db w') = Some product'
    ∧ ProductORM.id product' = ProductORM.id product
    ∧ ProductORM.name product' = ProductORM.name product
    ∧ ProductORM.category product' = ProductORM.category product
    ∧ ProductORM.price product' = ProductORM.price product
    ∧ ProductORM.description product' = ProductORM.description product
    ∧ ProductORM.created_at product' = ProductORM.created_at product
    ∧ List.length (products (db w')) = List.length (products (db w))
    ∧ (∀ (i : nat) (r : ProductORM.t),
         products (db w) !! i = Some r → ProductORM.id r ≠ Some k →
         products (db w') !! i = Some r)
    ∧ (∀ j : Z, j ≠ k → select_product j (db w') = select_product j (db w))
    ∧ (∀ (i : nat) (x : TransactionORM.t),
         transactions (db w) !! i = Some x →
         transactions (db w') !! i = Some x).
Proof.
  intros Hrun.
  apply purchase_Return_inv in Hrun as (product & Hsel & _ & Hdb & _).
  pose proof (select_product_id _ _ _ Hsel) as Hid.
  pose proof (select_product_in_range _ _ _ Hsel) as Hrange.
  eexists product, _. cbn zeta. rewrite Hdb.
  unfold select_product in *; in_range. cbn.
  split; [exact Hsel|].
  split; [by erewrite find_overwrite_eq; [|exact Hid|exact Hsel]|].
  cbn. repeat (split; [reflexivity|]).
  split; [by rewrite length_map|].
  split; [|split].
  - intros i r Hi Hr. rewrite list_lookup_fmap, Hi. cbn.
    by rewrite (proj2 (has_id_false _ _) Hr).
  - intros j Hne. by rewrite find_overwrite_ne.
  - intros i x Hi. by apply lookup_app_l_Some.
Qed.

Lemma purchase_frame_witness :
  ∃ product product' : ProductORM.t,
    select_product 1 (db shop) = Some product
    ∧ select_product 1 (db (purchase ticking_clock buy_milk shop).2)
      = Some product'
    ∧ ProductORM.id product' = ProductORM.id product
    ∧ ProductORM.name product' = ProductORM.name product
    ∧ ProductORM.category product' = ProductORM.category product
    ∧ ProductORM.price product' = ProductORM.price product
    ∧ ProductORM.description product' = ProductORM.description product
    ∧ ProductORM.created_at product' = ProductORM.created_at product
    ∧ List.length (products (db (purchase ticking_clock buy_milk shop).2))
      = List.length (products (db shop))
    ∧ (∀ (i : nat) (r : ProductORM.t),
         products (db shop) !! i = Some r → ProductORM.id r ≠ Some 1 →
         products (db (purchase ticking_clock buy_milk shop).2) !! i = Some r)
    ∧ (∀ j : Z, j ≠ 1 →
         select_product j (db (purchase ticking_clock buy_milk shop).2)
         = select_product j (db shop))
    ∧ (∀ (i : nat) (x : TransactionORM.t),
         transactions (db shop) !! i = Some x →
         transactions (db (purchase ticking_clock buy_milk shop).2) !! i
         = Some x).
Proof.
  refine (purchase_frame ticking_clock buy_milk shop
            (purchase ticking_clock buy_milk shop).2
            (TransactionOut.mk (Some 1) (Some 1) "purchase" 10 100
               (Some "restock") 5 (Some "Milk")) _).
  vm_compute. reflexivity.
Defined.

(** ** [strip] removes the surrounding whitespace and nothing else *)

Lemma lstrip_spec (s : string) :
  ∃ l : string,
    s = (l ++ lstrip s)%string ∧ all_space l = true
    ∧ starts_with_space (lstrip s) = false.
Proof.
  induction s as [|c s (l & Heq & Hl & Hstart)]; [by exists EmptyString|].
  cbn. destruct (isspace c) eqn:Hc.
  - exists (String c l).
    split; [exact (f_equal (String c) Heq)|]. cbn. by rewrite Hc, Hl.
  - exists EmptyString. by cbn.
Qed.

Lemma rstrip_spec (s : string) :
  ∃ r : string,
    s = (rstrip s ++ r)%string ∧ all_space r = true
    ∧ ends_with_space (rstrip s) = false.
Proof.
  induction s as [|c s (r & Heq & Hr & Hend)]; [by exists EmptyString|].
  cbn. destruct (rstrip s) as [|c' s'] eqn:Hrs.
  - destruct (isspace c) eqn:Hc.
    + exists (String c r).
      split; [exact (f_equal (String c) Heq)|]. cbn. by rewrite Hc, Hr.
    + exists r. split; [exact (f_equal (String c) Heq)|]. cbn. by rewrite Hc.
  - exists r. split; [exact (f_equal (String c) Heq)|]. split; [exact Hr|].
    exact Hend.
Qed.

Lemma rstrip_keeps_start (s : string) :
  starts_with_space s = false → starts_with_space (rstrip s) = false.
Proof.
  destruct s as [|c s]; [done|]. cbn. intros Hc.
  destruct (rstrip s); [by rewrite Hc|done].
Qed.

Lemma strip_spec (s : string) :
  ∃ l r : string,
    s = (l ++ strip s ++ r)%string
    ∧ all_space l = true ∧ all_space r = true
    ∧ starts_with_space (strip s) = false
    ∧ ends_with_space (strip s) = false.
Proof.
  destruct (lstrip_spec s) as (l & Hl & Hsl & Hstart).
  destruct (rstrip_spec (lstrip s)) as (r & Hr & Hsr & Hend).
  exists l, r. unfold strip.
  split; [by rewrite <- Hr, <- Hl|].
  auto using rstrip_keeps_start.
Qed.

(** ** Keys handed out by the database are new *)

Lemma max_id_bound (ids : list Z) (k : Z) :
  k ∈ ids → ∃ m, max_id ids = Some m ∧ k <= m.
Proof.
  induction ids as [|j ids IH]; [by intros ?%elem_of_nil|].
  change (max_id (j :: ids))
    with (Some (from_option (Z.max j) j (max_id ids))).
  intros [->|Hin]%elem_of_cons.
  - destruct (max_id ids) as [m|]; cbn.
    + exists (Z.max j m). split; [reflexivity|lia].
    + exists j. split; [reflexivity|lia].
  - destruct (IH Hin) as (m & -> & Hle). cbn.
    exists (Z.max j m). split; [reflexivity|lia].
Qed.

Lemma next_rowid_fresh (ids : list Z) : next_rowid ids ∉ ids.
Proof.
  intros Hin. apply max_id_bound in Hin as (m & Hm & Hle).
  unfold next_rowid in Hle. rewrite Hm in Hle. cbn in Hle. lia.
Qed.

Lemma allocate_rowid_fresh (ids : list Z) : allocate_rowid ids ∉ ids.
Proof.
  unfold allocate_rowid.
  destruct (in_int64 (next_rowid ids)); [apply next_rowid_fresh|].
  destruct (List.find _ _) as [c|] eqn:Hfind; cbn;
    [|apply next_rowid_fresh].
  apply find_some in Hfind as [_ Hc]. by apply bool_decide_eq_true in Hc.
Qed.

Lemma find_fresh_row (k : Z) (p : ProductORM.t) (rows : list ProductORM.t) :
  ProductORM.id p = Some k → k ∉ omap ProductORM.id rows →
  List.find (has_id (Some k)) (rows ++ [p]) = Some p.
Proof.
  intros Hid. induction rows as [|r rows IH]; cbn.
  - intros _. by rewrite (proj2 (has_id_true _ _) Hid).
  - destruct (has_id (Some k) r) eqn:Hr.
    + apply has_id_true in Hr. rewrite Hr. cbn.
      intros []. by left.
    + intros Hnotin. apply IH. intros Hin. apply Hnotin.
      destruct (ProductORM.id r); cbn; [by right|done].
Qed.

Lemma name_taken_true (n : string) (rows : list ProductORM.t) :
  name_taken n rows = true ↔ ∃ r, r ∈ rows ∧ ProductORM.name r = n.
Proof.
  unfold name_taken. rewrite existsb_exists. split.
  - intros (r & Hin & Heq). exists r.
    by rewrite list_elem_of_In, <- eqb_string_true.
  - intros (r & Hin & Heq). exists r.
    by rewrite <- list_elem_of_In, eqb_string_true.
Qed.

(** ** What the catalog handlers do *)

Section CatalogFacts.

Context (clock : nat → datetime).

(** [create_product] reads the clock twice and commits one INSERT: a stock
    SQLite's INTEGER cannot hold raises OverflowError when it is bound, a
    stripped name that is in the table raises DuplicateName, and otherwise
    the new row is appended under a new key.  The tables are left alone
    unless the call returns. *)
Lemma create_product_run (payload : ProductCreate.t) (w : World) :
  let product :=
    ProductORM.mk
      (Some (allocate_rowid (omap ProductORM.id (products (db w)))))
      (strip (ProductCreate.name payload))
      (match ProductCreate.category payload with
       | Some EmptyString => None
       | c => c
       end)
      (ProductCreate.price payload) (ProductCreate.stock payload)
      (ProductCreate.description payload)
      (clock (clock_reads w)) (clock (S (clock_reads w))) in
  create_product clock payload w =
    if negb (in_int64 (ProductCreate.stock payload))
    then (Raise OverflowError, mkWorld (db w) (S (S (clock_reads w))))
    else if name_taken (strip (ProductCreate.name payload)) (products (db w))
    then (Raise DuplicateName, mkWorld (db w) (S (S (clock_reads w))))
    else (Return product,
          mkWorld (mkDatabase (products (db w) ++ [product])
                              (transactions (db w)))
                  (S (S (clock_reads w)))).
Proof.
  unfold create_product, try_except_IntegrityError, commit, insert_product,
    mbind, M_bind, utcnow. cbn.
  destruct (in_int64 (ProductCreate.stock payload)); cbn; [|done].
  by destruct (name_taken _ _).
Qed.

Lemma create_product_Return_inv (payload : ProductCreate.t) (w w' : World)
    (product : ProductORM.t) :
  create_product clock payload w = (Return product, w') →
  ∃ k : Z,
    ProductORM.id product = Some k
    ∧ ProductORM.name product = strip (ProductCreate.name payload)
    ∧ name_taken (strip (ProductCreate.name payload)) (products (db w)) = false
    ∧ products (db w') = (products (db w) ++ [product])%list
    ∧ transactions (db w') = transactions (db w)
    ∧ (k ∉ omap ProductORM.id (products (db w)))
    ∧ (in_int64 k = true → select_product k (db w') = Some product).
Proof.
  rewrite create_product_run. cbn zeta.
  destruct (negb _); [discriminate|].
  destruct (name_taken _ _) eqn:Htaken; [discriminate|].
  intros [= <- <-]. eexists. cbn. repeat (split; [reflexivity|]).
  split; [apply allocate_rowid_fresh|].
  intros Hrange. unfold select_product. rewrite Hrange. cbn.
  apply find_fresh_row; [done|apply allocate_rowid_fresh].
Qed.

(** A name whose stripped form is already stored is refused: as a
    duplicate when the payload's stock can be bound, with OverflowError
    when it cannot. *)
Lemma create_product_taken (payload : ProductCreate.t) (w : World)
    (r : ProductORM.t) :
  r ∈ products (db w) →
  ProductORM.name r = strip (ProductCreate.name payload) →
  create_product clock payload w
  = (Raise (if in_int64 (ProductCreate.stock payload)
            then DuplicateName else OverflowError),
     mkWorld (db w) (S (S (clock_reads w)))).
Proof.
  intros Hin Hname. rewrite create_product_run. cbn zeta.
  destruct (in_int64 (ProductCreate.stock payload)); cbn; [|done].
  by rewrite (proj2 (name_taken_true _ _) (ex_intro _ r (conj Hin Hname))).
Qed.

(** On a key that finds a product, [update_product] reads the clock once
    and commits one UPDATE: a new stock SQLite's INTEGER cannot hold
    raises OverflowError when it is bound, a new name that a row with
    another key carries raises DuplicateName, and otherwise the product's
    row is overwritten. *)
Lemma update_product_found (k : Z)
    (payload : ProductUpdate.t) (w : World) (product : ProductORM.t) :
  select_product k (db w) = Some product →
  let product' :=
    ProductORM.mk (ProductORM.id product)
      (from_option strip (ProductORM.name product) (ProductUpdate.name payload))
      (from_option Some (ProductORM.category product)
                   (ProductUpdate.category payload))
      (default (ProductORM.price product) (ProductUpdate.price payload))
      (default (ProductORM.stock product) (ProductUpdate.stock payload))
      (from_option Some (ProductORM.description product)
                   (ProductUpdate.description payload))
      (ProductORM.created_at product)
      (clock (clock_reads w)) in
  update_product clock k payload w =
    if negb (ProductORM.stock product =? ProductORM.stock product')
       && negb (in_int64 (ProductORM.stock product'))
    then (Raise OverflowError, mkWorld (db w) (S (clock_reads w)))
    else if negb (String.eqb (ProductORM.name product)
                             (ProductORM.name product'))
            && name_taken (ProductORM.name product')
                 (List.filter (λ r, negb (has_id (Some k) r))
                              (products (db w)))
    then (Raise DuplicateName, mkWorld (db w) (S (clock_reads w)))
    else (Return product',
          mkWorld (mkDatabase
                     (map (λ r, if has_id (Some k) r then product' else r)
                          (products (db w)))
                     (transactions (db w)))
                  (S (clock_reads w))).
Proof.
  intros Hsel. pose proof (select_product_id _ _ _ Hsel) as Hid.
  unfold update_product, mbind, M_bind, query_product_first.
  rewrite (select_product_in_range _ _ _ Hsel), Hsel.
  unfold utcnow, try_except_IntegrityError, commit, update_product_row.
  destruct payload as [[n|] [c|] [v|] [s|] [t|] ? ? ?]; cbn; rewrite Hid.
  all: destruct (negb (Z.eqb _ _) && _); cbn; [reflexivity|].
  all: destruct (negb (String.eqb _ _) && _); cbn; [reflexivity|].
  all: unfold ProductORM.set_updated_at, ProductORM.set_description,
         ProductORM.set_stock, ProductORM.set_price, ProductORM.set_category,
         ProductORM.set_name; cbn; rewrite ?Hid; reflexivity.
Qed.

(** On a key that finds nothing, or that SQLite cannot take, the query
    ends the call before anything else happens. *)
Lemma update_product_missing (k : Z) (payload : ProductUpdate.t) (w : World) :
  select_product k (db w) = None →
  update_product clock k payload w
  = (Raise (if in_int64 k then ProductNotFound else OverflowError), w).
Proof.
  intros Hsel. unfold update_product, mbind, M_bind, query_product_first.
  destruct (in_int64 k); [|done]. by rewrite Hsel.
Qed.

Lemma update_product_Return_inv (product_id : Z) (payload : ProductUpdate.t)
    (w w' : World) (product' : ProductORM.t) :
  update_product clock product_id payload w = (Return product', w') →
  select_product product_id (db w') = Some product'
  ∧ ProductORM.name product'
    = match ProductUpdate.name payload with
      | Some n => strip n
      | None => from_option ProductORM.name EmptyString
                  (select_product product_id (db w))
      end.
Proof.
  destruct (select_product product_id (db w)) as [product|] eqn:Hsel; cycle 1.
  { rewrite (update_product_missing _ _ _ Hsel). discriminate. }
  pose proof (select_product_id _ _ _ Hsel) as Hid.
  pose proof (select_product_in_range _ _ _ Hsel) as Hrange.
  rewrite (update_product_found _ _ _ _ Hsel). cbn zeta.
  destruct (negb (Z.eqb _ _) && _); [discriminate|].
  destruct (negb (String.eqb _ _) && _); [discriminate|].
  intros [= <- <-]. unfold select_product in *. in_range. cbn. split.
  - by erewrite find_overwrite_eq.
  - by destruct (ProductUpdate.name payload).
Qed.

End CatalogFacts.

(** ** The catalog's contract *)







(** * The remaining routes *)

(** ** Lookups after rows are removed or added *)

Lemma find_without_key (j : Z) (k : option Z) (rows : list ProductORM.t) :
  Some j ≠ k →
  List.find (has_id (Some j)) (filter (λ r, ProductORM.id r ≠ k) rows)
  = List.find (has_id (Some j)) rows.
Proof.
  intros Hne. induction rows as [|r rows IH]; [done|].
  rewrite filter_cons. cbn. destruct (has_id (Some j) r) eqn:Hj.
  - apply has_id_true in Hj.
    rewrite decide_True by congruence. cbn.
    by rewrite (proj2 (has_id_true _ _) Hj).
  - case_decide; cbn; [by rewrite Hj|exact IH].
Qed.

Lemma find_removed_key (k : Z) (rows : list ProductORM.t) :
  List.find (has_id (Some k)) (filter (λ r, ProductORM.id r ≠ Some k) rows)
  = None.
Proof.
  induction rows as [|r rows IH]; [done|].
  rewrite filter_cons. case_decide as Hr; [|exact IH].
  cbn. by rewrite (proj2 (has_id_false _ _) Hr).
Qed.

Lemma find_unused_key (k : Z) (rows : list ProductORM.t) :
  k ∉ omap ProductORM.id rows → List.find (has_id (Some k)) rows = None.
Proof.
  induction rows as [|r rows IH]; [done|]. cbn.
  destruct (has_id (Some k) r) eqn:Hr.
  - apply has_id_true in Hr. rewrite Hr. cbn. intros []. by left.
  - intros Hnotin. apply IH. intros Hin. apply Hnotin.
    destruct (ProductORM.id r); cbn; [by right|done].
Qed.

Lemma find_after_append (j : Z) (p q : ProductORM.t)
    (rows : list ProductORM.t) :
  List.find (has_id (Some j)) rows = Some q →
  List.find (has_id (Some j)) (rows ++ [p]) = Some q.
Proof.
  induction rows as [|r rows IH]; [done|]. cbn.
  destruct (has_id (Some j) r); [done|exact IH].
Qed.

(** ** [delete_product] *)

Lemma delete_product_run (k : Z) (w : World) :
  delete_product k w =
    match select_product k (db w) with
    | None => (Raise (if in_int64 k then ProductNotFound else OverflowError), w)
    | Some product =>
      (Return [("status", "ok")],
       mkWorld (delete_product_rows product (db w)) (clock_reads w))
    end.
Proof.
  unfold delete_product, mbind, M_bind, query_product_first, select_product.
  destruct (in_int64 k); [|done].
  by destruct (List.find _ _).
Qed.

(** X1.  [delete_product] fails only for a key that finds no product, and
    then leaves the world as it was: with the 404 "Product not found"
    when the key is within SQLite's signed 64-bit range, and with the
    OverflowError of the query of line 195 when it is outside.  For a key
    that finds a product it returns. *)
Theorem delete_product_fails_only_on_missing_key (k : Z) (w : World) :
  (select_product k (db w) = None →
   delete_product k w
   = (Raise (if in_int64 k then ProductNotFound else OverflowError), w))
  ∧ (∀ e w', delete_product k w = (Raise e, w') →
       e = (if in_int64 k then ProductNotFound else OverflowError)
       ∧ w' = w ∧ select_product k (db w) = None)
  ∧ (is_Some (select_product k (db w)) →
     ∃ w', delete_product k w = (Return [("status", "ok")], w')).
Proof.
  rewrite delete_product_run.
  destruct (select_product k (db w)) as [product|]; split_and!.
  - done.
  - by intros ?? [=].
  - eauto.
  - done.
  - by intros ?? [= <- <-].
  - by intros [? [=]].
Qed.

Lemma delete_product_fails_only_on_missing_key_witness :
  delete_product 7 traded_shop = (Raise ProductNotFound, traded_shop)
  ∧ delete_product (2 ^ 63) traded_shop = (Raise OverflowError, traded_shop)
  ∧ (∃ w', delete_product 1 traded_shop = (Return [("status", "ok")], w')).
Proof.
  split; [|split].
  - refine (proj1 (delete_product_fails_only_on_missing_key 7 traded_shop) _).
    reflexivity.
  - refine (proj1 (delete_product_fails_only_on_missing_key (2 ^ 63)
                     traded_shop) _).
    reflexivity.
  - refine (proj2 (proj2 (delete_product_fails_only_on_missing_key 1
                            traded_shop)) _).
    vm_compute. eauto.
Defined.

(** X2.  A successful [delete_product] removes the product, so its key
    finds nothing afterwards, and with it exactly the ledger records that
    refer to it: the records left are those of the other products, in
    their old order.  Every other product reads as before and the clock is
    not consulted. *)
Theorem delete_product_cascades (k : Z) (w w' : World)
    (out : list (string * string)) :
  delete_product k w = (Return out, w') →
  select_product k (db w') = None
  ∧ transactions (db w')
    = filter (λ x, TransactionORM.product_id x ≠ Some k) (transactions (db w))
  ∧ (∀ x, x ∈ transactions (db w') → TransactionORM.product_id x ≠ Some k)
  ∧ (∀ j, j ≠ k → select_product j (db w') = select_product j (db w))
  ∧ clock_reads w' = clock_reads w.
Proof.
  rewrite delete_product_run.
  destruct (select_product k (db w)) as [product|] eqn:Hsel; [|done].
  pose proof (select_product_id _ _ _ Hsel) as Hid.
  pose proof (select_product_in_range _ _ _ Hsel) as Hrange.
  intros [= <- <-]. unfold select_product, delete_product_rows. cbn.
  rewrite Hid, Hrange. split_and!.
  - apply find_removed_key.
  - done.
  - by intros x [? _]%list_elem_of_filter.
  - intros j Hne. destruct (in_int64 j); [|done].
    apply find_without_key. congruence.
  - done.
Qed.

Lemma delete_product_cascades_witness :
  select_product 1 (db (delete_product 1 traded_shop).2) = None
  ∧ transactions (db (delete_product 1 traded_shop).2)
    = filter (λ x, TransactionORM.product_id x ≠ Some 1)
             (transactions (db traded_shop))
  ∧ (∀ x, x ∈ transactions (db (delete_product 1 traded_shop).2) →
          TransactionORM.product_id x ≠ Some 1)
  ∧ (∀ j, j ≠ 1 → select_product j (db (delete_product 1 traded_shop).2)
                  = select_product j (db traded_shop))
  ∧ clock_reads (delete_product 1 traded_shop).2 = clock_reads traded_shop.
Proof.
  apply (delete_product_cascades 1 traded_shop
           (delete_product 1 traded_shop).2 [("status", "ok")]).
  vm_compute. reflexivity.
Defined.

Lemma purchase_missing_product (clock : nat → datetime)
    (payload : TransactionCreate.t) (w : World) :
  TransactionCreate.type payload = "purchase"
  ∨ TransactionCreate.type payload = "sale" →
  in_int64 (TransactionCreate.product_id payload) = true →
  select_product (TransactionCreate.product_id payload) (db w) = None →
  purchase clock payload w = (Raise ProductNotFound, w).
Proof.
  intros Hkind Hrange Hsel. rewrite purchase_run. cbn zeta.
  rewrite Hrange, Hsel. by destruct Hkind as [->| ->].
Qed.

(** X3.  Once a product is deleted its key is dead for every route that
    takes one: buying or selling it, updating it and deleting it again all
    raise the 404 "Product not found" and change nothing. *)
Theorem deleted_product_is_gone (clock : nat → datetime) (k : Z)
    (w w' : World) (out : list (string * string)) :
  delete_product k w = (Return out, w') →
  (∀ kind q price note,
     kind = "purchase" ∨ kind = "sale" →
     purchase clock (TransactionCreate.mk k kind q price note) w'
     = (Raise ProductNotFound, w'))
  ∧ (∀ payload, update_product clock k payload w'
                = (Raise ProductNotFound, w'))
  ∧ delete_product k w' = (Raise ProductNotFound, w').
Proof.
  rewrite delete_product_run.
  destruct (select_product k (db w)) as [product|] eqn:Hsel; [|done].
  pose proof (select_product_id _ _ _ Hsel) as Hid.
  pose proof (select_product_in_range _ _ _ Hsel) as Hrange.
  intros [= <- <-].
  set (w' := mkWorld (delete_product_rows product (db w)) (clock_reads w)).
  assert (select_product k (db w') = None) as Hgone.
  { unfold select_product, delete_product_rows. cbn. rewrite Hid, Hrange.
    apply find_removed_key. }
  clearbody w'. split_and!.
  - intros kind q price note Hkind.
    by apply purchase_missing_product.
  - intros payload. by rewrite (update_product_missing _ _ _ _ Hgone), Hrange.
  - rewrite delete_product_run. by rewrite Hgone, Hrange.
Qed.

Lemma deleted_product_is_gone_witness :
  (∀ kind q price note,
     kind = "purchase" ∨ kind = "sale" →
     purchase ticking_clock (TransactionCreate.mk 1 kind q price note)
       (delete_product 1 traded_shop).2
     = (Raise ProductNotFound, (delete_product 1 traded_shop).2))
  ∧ (∀ payload, update_product ticking_clock 1 payload
                  (delete_product 1 traded_shop).2
                = (Raise ProductNotFound, (delete_product 1 traded_shop).2))
  ∧ delete_product 1 (delete_product 1 traded_shop).2
    = (Raise ProductNotFound, (delete_product 1 traded_shop).2).
Proof.
  apply (deleted_product_is_gone ticking_clock 1 traded_shop
           (delete_product 1 traded_shop).2 [("status", "ok")]).
  vm_compute. reflexivity.
Defined.

(** ** The two listings *)

Global Instance newer_product_trans : Transitive newer_product.
Proof. unfold newer_product. intros a b c. lia. Qed.

Global Instance newer_product_total : Total newer_product.
Proof. unfold newer_product. intros a b. lia. Qed.

Global Instance newer_transaction_trans : Transitive newer_transaction.
Proof. unfold newer_transaction. intros a b c. lia. Qed.

Global Instance newer_transaction_total : Total newer_transaction.
Proof. unfold newer_transaction. intros a b. lia. Qed.

(** How [list_transactions] renders one ledger record. *)
Lemma list_transactions_run (w : World) :
  list_transactions w =
    (Return
       (map (λ t, TransactionOut.mk
                    (TransactionORM.id t) (TransactionORM.product_id t)
                    (TransactionORM.type t) (TransactionORM.quantity t)
                    (TransactionORM.unit_price t) (TransactionORM.note t)
                    (TransactionORM.created_at t)
                    (ProductORM.name <$> transaction_product t (db w)))
            (merge_sort newer_transaction (transactions (db w)))),
     w).
Proof. reflexivity. Qed.

Lemma StronglySorted_map {A B : Type} (R : relation A) (S : relation B)
    (f : A → B) (l : list A) :
  (∀ a b, R a b → S (f a) (f b)) →
  StronglySorted R l → StronglySorted S (map f l).
Proof.
  intros Hmono. induction 1 as [|a l Hl IH Hall]; cbn; constructor.
  - exact IH.
  - apply Forall_fmap. eapply Forall_impl; [exact Hall|]. intros b. apply Hmono.
Qed.

(** X4.  [list_products] returns every row of the products table exactly
    once, each one before all rows created earlier than it, and leaves the
    world alone. *)
Theorem list_products_newest_first (w : World) :
  ∃ rows : list ProductORM.t,
    list_products w = (Return rows, w)
    ∧ rows ≡ₚ products (db w)
    ∧ StronglySorted
        (λ a b, ProductORM.created_at b <= ProductORM.created_at a) rows.
Proof.
  eexists. split; [reflexivity|]. split.
  - apply merge_sort_Permutation.
  - apply (StronglySorted_merge_sort newer_product).
Qed.

(** X5.  [list_transactions] returns one entry for every ledger record,
    carrying the record's own columns, each entry before all entries
    created earlier than it, and leaves the world alone. *)
Theorem list_transactions_newest_first (w : World) :
  ∃ outs : list TransactionOut.t,
    list_transactions w = (Return outs, w)
    ∧ List.length outs = ledger_count (db w)
    ∧ StronglySorted
        (λ a b, TransactionOut.created_at b <= TransactionOut.created_at a)
        outs
    ∧ map (λ o, TransactionORM.mk
                  (TransactionOut.id o) (TransactionOut.product_id o)
                  (TransactionOut.type o) (TransactionOut.quantity o)
                  (TransactionOut.unit_price o) (TransactionOut.note o)
                  (TransactionOut.created_at o)) outs
      ≡ₚ transactions (db w).
Proof.
  eexists. split; [apply list_transactions_run|]. split_and!.
  - rewrite length_map. unfold ledger_count.
    by rewrite (merge_sort_Permutation newer_transaction).
  - eapply StronglySorted_map;
      [|apply (StronglySorted_merge_sort newer_transaction)].
    intros a b Hab. exact Hab.
  - rewrite map_map. cbn.
    rewrite (map_ext _ id) by (by intros []).
    rewrite map_id. apply merge_sort_Permutation.
Qed.

Lemma list_transactions_names (w : World) (outs : list TransactionOut.t)
    (o : TransactionOut.t) :
  list_transactions w = (Return outs, w) → o ∈ outs →
  TransactionOut.product_name o
  = ProductORM.name
      <$> (k ← TransactionOut.product_id o; select_product k (db w)).
Proof.
  rewrite list_transactions_run. intros [= <-].
  intros (x & -> & _)%list_elem_of_fmap. reflexivity.
Qed.

(** X6.  The product name in an entry of [list_transactions] is read from
    the products table when the list is made: it is the name the product
    with the entry's key has now, and it is missing when there is no such
    product. *)
Theorem list_transactions_shows_current_names (w : World)
    (outs : list TransactionOut.t) (o : TransactionOut.t) :
  list_transactions w = (Return outs, w) → o ∈ outs →
  match TransactionOut.product_id o with
  | Some k =>
    TransactionOut.product_name o = ProductORM.name <$> select_product k (db w)
  | None => TransactionOut.product_name o = None
  end.
Proof.
  intros Hrun Hin. rewrite (list_transactions_names w outs o Hrun Hin).
  by destruct (TransactionOut.product_id o).
Qed.

Lemma list_transactions_shows_current_names_witness :
  TransactionOut.product_name
    (TransactionOut.mk (Some 2) (Some 1) "sale" 10 100 None 7 (Some "Milk"))
  = ProductORM.name <$> select_product 1 (db traded_shop).
Proof.
  refine (list_transactions_shows_current_names traded_shop
            [TransactionOut.mk (Some 2) (Some 1) "sale" 10 100 None 7
               (Some "Milk");
             TransactionOut.mk (Some 1) (Some 1) "purchase" 10 100
               (Some "restock") 5 (Some "Milk")]
            (TransactionOut.mk (Some 2) (Some 1) "sale" 10 100 None 7
               (Some "Milk")) _ _).
  - vm_compute. reflexivity.
  - apply list_elem_of_here.
Defined.

(** ** What [purchase] returns *)

Lemma purchase_Return_out (clock : nat → datetime)
    (payload : TransactionCreate.t) (w w' : World) (out : TransactionOut.t) :
  purchase clock payload w = (Return out, w') →
  ∃ product : ProductORM.t,
    select_product (TransactionCreate.product_id payload) (db w) = Some product
    ∧ out = TransactionOut.mk
              (Some (allocate_rowid
                       (omap TransactionORM.id (transactions (db w)))))
              (Some (TransactionCreate.product_id payload))
              (TransactionCreate.type payload)
              (Z.pos (TransactionCreate.quantity payload))
              (TransactionCreate.unit_price payload)
              (TransactionCreate.note payload)
              (clock (S (clock_reads w)))
              (Some (ProductORM.name product)).
Proof.
  rewrite purchase_run. cbn zeta.
  destruct (negb (_ || _)); [discriminate|].
  destruct (negb (in_int64 _)); [discriminate|].
  destruct (select_product _ _) as [product|] eqn:Hsel; [|discriminate].
  destruct (String.eqb _ "sale" && _); [discriminate|].
  destruct (negb (in_int64 _ && _)); [discriminate|].
  intros [= <- <-]. by exists product.
Qed.

(** X7.  What a successful [purchase] returns is what the ledger shows:
    the returned entry, with the key the database gave it and the
    product's name, is among the entries of [list_transactions] right
    after the call, and its key was not in use in the ledger before. *)
Theorem purchase_result_is_listed (clock : nat → datetime)
    (payload : TransactionCreate.t) (w w' : World) (out : TransactionOut.t) :
  purchase clock payload w = (Return out, w') →
  ∃ (outs : list TransactionOut.t) (k : Z),
    list_transactions w' = (Return outs, w')
    ∧ out ∈ outs
    ∧ TransactionOut.id out = Some k
    ∧ (∀ x, x ∈ transactions (db w) → TransactionORM.id x ≠ Some k)
    ∧ TransactionOut.product_id out
      = Some (TransactionCreate.product_id payload).
Proof.
  intros Hrun.
  destruct (purchase_Return_out _ _ _ _ _ Hrun) as (product & Hsel & Hout).
  apply purchase_Return_inv in Hrun as (product0 & Hsel0 & _ & Hdb & _).
  rewrite Hsel in Hsel0. injection Hsel0 as <-.
  pose proof (select_product_id _ _ _ Hsel) as Hid.
  pose proof (select_product_in_range _ _ _ Hsel) as Hrange.
  eexists _, _. split; [apply list_transactions_run|]. split_and!.
  - apply list_elem_of_fmap. eexists. split; cycle 1.
    + rewrite (merge_sort_Permutation newer_transaction), Hdb. cbn.
      apply elem_of_app. right. apply list_elem_of_here.
    + rewrite Hout, Hdb. unfold transaction_product, select_product in *.
      cbn. in_range. cbn.
      by erewrite find_overwrite_eq; [|exact Hid|exact Hsel].
  - by rewrite Hout.
  - intros x Hx Heq.
    apply (allocate_rowid_fresh (omap TransactionORM.id (transactions (db w)))).
    apply list_elem_of_omap. eauto.
  - by rewrite Hout.
Qed.

Lemma purchase_result_is_listed_witness :
  ∃ (outs : list TransactionOut.t) (k : Z),
    list_transactions (purchase ticking_clock buy_bread traded_shop).2
    = (Return outs, (purchase ticking_clock buy_bread traded_shop).2)
    ∧ TransactionOut.mk (Some 3) (Some 2) "purchase" 4 250 None 9
        (Some "Bread") ∈ outs
    ∧ Some 3 = Some k
    ∧ (∀ x, x ∈ transactions (db traded_shop) → TransactionORM.id x ≠ Some k)
    ∧ Some 2 = Some 2.
Proof.
  refine (purchase_result_is_listed ticking_clock buy_bread traded_shop
            (purchase ticking_clock buy_bread traded_shop).2
            (TransactionOut.mk (Some 3) (Some 2) "purchase" 4 250 None 9
               (Some "Bread")) _).
  vm_compute. reflexivity.
Defined.

(** ** What [update_product] does *)

Lemma name_taken_by_another (n : string) (k : Z) (rows : list ProductORM.t) :
  name_taken n (List.filter (λ r, negb (has_id (Some k) r)) rows) = true
  ↔ ∃ other, other ∈ rows ∧ ProductORM.id other ≠ Some k
             ∧ ProductORM.name other = n.
Proof.
  rewrite name_taken_true. split.
  - intros (r & Hin & Hname). exists r.
    apply list_elem_of_In, filter_In in Hin as [Hin Hid].
    apply negb_true_iff, has_id_false in Hid.
    by rewrite list_elem_of_In.
  - intros (r & Hin & Hid & Hname). exists r. split; [|done].
    apply list_elem_of_In, filter_In. split; [by apply list_elem_of_In|].
    by apply negb_true_iff, has_id_false.
Qed.

(** X8.  [update_product] writes nothing when it fails, and fails in
    these ways only.  The query ends the call, the world unchanged, with
    the 404 "Product not found" for a key within SQLite's signed 64-bit
    range that finds no product and with OverflowError for a key outside
    it.  On a product that is found, the commit raises OverflowError when
    the payload carries a new stock that SQLite's INTEGER cannot hold, and
    DuplicateName when the payload's name, stripped, differs from the
    product's and is the name of a row with another key; the clock has
    then been read once. *)
Theorem update_product_fails_without_writing (clock : nat → datetime) (k : Z)
    (payload : ProductUpdate.t) (w w' : World) (e : exn) :
  update_product clock k payload w = (Raise e, w') →
  db w' = db w
  ∧ (select_product k (db w) = None ∧ w' = w
     ∧ e = (if in_int64 k then ProductNotFound else OverflowError)
     ∨ ∃ product : ProductORM.t,
         select_product k (db w) = Some product
         ∧ clock_reads w' = S (clock_reads w)
         ∧ (e = OverflowError
            ∧ (∃ s : Z,
                 ProductUpdate.stock payload = Some s
                 ∧ s ≠ ProductORM.stock product
                 ∧ in_int64 s = false)
            ∨ e = DuplicateName
              ∧ (∃ (other : ProductORM.t) (n : string),
                   ProductUpdate.name payload = Some n
                   ∧ strip n ≠ ProductORM.name product
                   ∧ other ∈ products (db w)
                   ∧ ProductORM.id other ≠ Some k
                   ∧ ProductORM.name other = strip n))).
Proof.
  destruct (select_product k (db w)) as [product|] eqn:Hsel; cycle 1.
  { rewrite (update_product_missing clock k payload w Hsel).
    intros [= <- <-]. auto. }
  rewrite (update_product_found clock k payload w product Hsel). cbn zeta.
  destruct (negb (Z.eqb _ _) && _) eqn:Hover.
  { intros [= <- <-]. split; [done|]. right. exists product.
    split; [done|]. split; [done|]. left. split; [done|].
    apply andb_true_iff in Hover as [Hmoved Hbig]. cbn in *.
    apply negb_true_iff in Hmoved, Hbig. apply Z.eqb_neq in Hmoved.
    destruct (ProductUpdate.stock payload) as [s|]; cbn in *; [|done].
    exists s. split; [done|]. split; [congruence|done]. }
  destruct (negb (String.eqb _ _) && _) eqn:Hcond; [|discriminate].
  intros [= <- <-]. split; [done|]. right. exists product.
  split; [done|]. split; [done|]. right. split; [done|].
  apply andb_true_iff in Hcond as [Hchanged Htaken]. cbn in *.
  apply negb_true_iff, eqb_string_false in Hchanged.
  apply name_taken_by_another in Htaken as (other & Hin & Hid & Hname).
  destruct (ProductUpdate.name payload) as [n|]; cbn in *; [|done].
  exists other, n. by repeat split.
Qed.

Lemma update_product_fails_without_writing_witness :
  (db (mkWorld (db traded_shop) 9) = db traded_shop
   ∧ (select_product 1 (db traded_shop) = None
      ∧ mkWorld (db traded_shop) 9 = traded_shop
      ∧ DuplicateName = (if in_int64 1 then ProductNotFound
                         else OverflowError)
      ∨ ∃ product : ProductORM.t,
          select_product 1 (db traded_shop) = Some product
          ∧ clock_reads (mkWorld (db traded_shop) 9)
            = S (clock_reads traded_shop)
          ∧ (DuplicateName = OverflowError
             ∧ (∃ s : Z,
                  ProductUpdate.stock rename_milk_to_bread = Some s
                  ∧ s ≠ ProductORM.stock product
                  ∧ in_int64 s = false)
             ∨ DuplicateName = DuplicateName
               ∧ (∃ (other : ProductORM.t) (n : string),
                    ProductUpdate.name rename_milk_to_bread = Some n
                    ∧ strip n ≠ ProductORM.name product
                    ∧ other ∈ products (db traded_shop)
                    ∧ ProductORM.id other ≠ Some 1
                    ∧ ProductORM.name other = strip n))))
  ∧ (db (mkWorld (db traded_shop) 9) = db traded_shop
     ∧ (select_product 1 (db traded_shop) = None
        ∧ mkWorld (db traded_shop) 9 = traded_shop
        ∧ OverflowError = (if in_int64 1 then ProductNotFound
                           else OverflowError)
        ∨ ∃ product : ProductORM.t,
            select_product 1 (db traded_shop) = Some product
            ∧ clock_reads (mkWorld (db traded_shop) 9)
              = S (clock_reads traded_shop)
            ∧ (OverflowError = OverflowError
               ∧ (∃ s : Z,
                    ProductUpdate.stock overstock_only = Some s
                    ∧ s ≠ ProductORM.stock product
                    ∧ in_int64 s = false)
               ∨ OverflowError = DuplicateName
                 ∧ (∃ (other : ProductORM.t) (n : string),
                      ProductUpdate.name overstock_only = Some n
                      ∧ strip n ≠ ProductORM.name product
                      ∧ other ∈ products (db traded_shop)
                      ∧ ProductORM.id other ≠ Some 1
                      ∧ ProductORM.name other = strip n)))).
Proof.
  split.
  - apply (update_product_fails_without_writing ticking_clock 1
             rename_milk_to_bread traded_shop (mkWorld (db traded_shop) 9)
             DuplicateName).
    vm_compute. reflexivity.
  - apply (update_product_fails_without_writing ticking_clock 1
             overstock_only traded_shop (mkWorld (db traded_shop) 9)
             OverflowError).
    vm_compute. reflexivity.
Defined.

(** X9.  Renaming a product to a name that, once stripped, another product
    carries is refused and nothing is written: with DuplicateName, unless
    the payload also carries a new stock that SQLite's INTEGER cannot
    hold, which makes the UPDATE raise OverflowError when it is bound,
    before the UNIQUE index is consulted.  The clock has been read
    once. *)
Theorem update_to_taken_name_is_refused (clock : nat → datetime) (k : Z)
    (payload : ProductUpdate.t) (w : World) (product other : ProductORM.t)
    (n : string) :
  select_product k (db w) = Some product →
  ProductUpdate.name payload = Some n →
  strip n ≠ ProductORM.name product →
  other ∈ products (db w) →
  ProductORM.id other ≠ Some k →
  ProductORM.name other = strip n →
  update_product clock k payload w
  = (Raise (match ProductUpdate.stock payload with
            | Some s =>
              if negb (ProductORM.stock product =? s) && negb (in_int64 s)
              then OverflowError else DuplicateName
            | None => DuplicateName
            end),
     mkWorld (db w) (S (clock_reads w))).
Proof.
  intros Hsel Hn Hchanged Hin Hid Hname.
  rewrite (update_product_found clock k payload w product Hsel). cbn zeta.
  rewrite Hn. cbn.
  assert (negb (String.eqb (ProductORM.name product) (strip n))
          && name_taken (strip n)
               (List.filter (λ r, negb (has_id (Some k) r)) (products (db w)))
          = true) as ->.
  { rewrite (proj2 (eqb_string_false _ _)) by congruence. cbn.
    apply name_taken_by_another. by exists other. }
  destruct (ProductUpdate.stock payload) as [s|]; cbn.
  - by destruct (negb (Z.eqb _ _) && _).
  - by rewrite Z.eqb_refl.
Qed.

Lemma update_to_taken_name_is_refused_witness :
  update_product ticking_clock 1 rename_milk_to_bread traded_shop
  = (Raise DuplicateName, mkWorld (db traded_shop) 9)
  ∧ update_product ticking_clock 1
      (ProductUpdate.mk (Some "Bread ") None None (Some (2 ^ 63)) None I I I)
      traded_shop
    = (Raise OverflowError, mkWorld (db traded_shop) 9).
Proof.
  split.
  - refine (update_to_taken_name_is_refused ticking_clock 1
              rename_milk_to_bread traded_shop
              (ProductORM.mk (Some 1) "Milk" (Some "Dairy") 150 5 None 0 6)
              bread "Bread " _ _ _ _ _ _).
    + reflexivity.
    + reflexivity.
    + vm_compute. discriminate.
    + apply list_elem_of_further, list_elem_of_here.
    + vm_compute. discriminate.
    + reflexivity.
  - refine (update_to_taken_name_is_refused ticking_clock 1
              (ProductUpdate.mk (Some "Bread ") None None (Some (2 ^ 63)) None
                                I I I)
              traded_shop
              (ProductORM.mk (Some 1) "Milk" (Some "Dairy") 150 5 None 0 6)
              bread "Bread " _ _ _ _ _ _).
    + reflexivity.
    + reflexivity.
    + vm_compute. discriminate.
    + apply list_elem_of_further, list_elem_of_here.
    + vm_compute. discriminate.
    + reflexivity.
Defined.

(** X10.  An update that leaves the name alone, because the payload has
    no name or has one that strips to the product's own, never collides
    with anything: on an existing product it returns and keeps the name,
    provided the stock the payload carries, if any, fits SQLite's signed
    64-bit INTEGER. *)
Theorem update_keeping_name_returns (clock : nat → datetime) (k : Z)
    (payload : ProductUpdate.t) (w : World) (product : ProductORM.t) :
  select_product k (db w) = Some product →
  from_option strip (ProductORM.name product) (ProductUpdate.name payload)
  = ProductORM.name product →
  from_option in_int64 true (ProductUpdate.stock payload) = true →
  ∃ (product' : ProductORM.t) (w' : World),
    update_product clock k payload w = (Return product', w')
    ∧ ProductORM.name product' = ProductORM.name product.
Proof.
  intros Hsel Hname Hfits.
  rewrite (update_product_found clock k payload w product Hsel). cbn zeta.
  cbn. rewrite Hname, String.eqb_refl. cbn.
  assert (negb (ProductORM.stock product
                =? default (ProductORM.stock product)
                     (ProductUpdate.stock payload))
          && negb (in_int64 (default (ProductORM.stock product)
                               (ProductUpdate.stock payload))) = false) as ->.
  { destruct (ProductUpdate.stock payload) as [s|]; cbn in *.
    - rewrite Hfits. cbn. apply andb_false_r.
    - by rewrite Z.eqb_refl. }
  eauto.
Qed.

Lemma update_keeping_name_returns_witness :
  ∃ (product' : ProductORM.t) (w' : World),
    update_product ticking_clock 1 rename_to_own_name_padded traded_shop
    = (Return product', w')
    ∧ ProductORM.name product' = "Milk".
Proof.
  refine (update_keeping_name_returns ticking_clock 1
            rename_to_own_name_padded traded_shop
            (ProductORM.mk (Some 1) "Milk" (Some "Dairy") 150 5 None 0 6)
            _ _ _).
  - reflexivity.
  - reflexivity.
  - reflexivity.
Defined.

(** X11.  A successful [update_product] overwrites what the payload
    carries and nothing else: a field the payload leaves out keeps its
    value (so a category or a description cannot be cleared), the key and
    [created_at] stay, [updated_at] is the one clock reading, the stock
    is set to the payload's without a ledger record, every other product
    reads as before and the ledger is untouched. *)
Theorem update_product_effect (clock : nat → datetime) (k : Z)
    (payload : ProductUpdate.t) (w w' : World) (product' : ProductORM.t) :
  update_product clock k payload w = (Return product', w') →
  ∃ product : ProductORM.t,
    select_product k (db w) = Some product
    ∧ select_product k (db w') = Some product'
    ∧ ProductORM.id product' = Some k
    ∧ ProductORM.name product'
      = from_option strip (ProductORM.name product) (ProductUpdate.name payload)
    ∧ ProductORM.category product'
      = from_option Some (ProductORM.category product)
                    (ProductUpdate.category payload)
    ∧ ProductORM.price product'
      = default (ProductORM.price product) (ProductUpdate.price payload)
    ∧ ProductORM.stock product'
      = default (ProductORM.stock product) (ProductUpdate.stock payload)
    ∧ ProductORM.description product'
      = from_option Some (ProductORM.description product)
                    (ProductUpdate.description payload)
    ∧ ProductORM.created_at product' = ProductORM.created_at product
    ∧ ProductORM.updated_at product' = clock (clock_reads w)
    ∧ (∀ j, j ≠ k → select_product j (db w') = select_product j (db w))
    ∧ transactions (db w') = transactions (db w)
    ∧ clock_reads w' = S (clock_reads w).
Proof.
  destruct (select_product k (db w)) as [product|] eqn:Hsel; cycle 1.
  { by rewrite (update_product_missing clock k payload w Hsel). }
  pose proof (select_product_id _ _ _ Hsel) as Hid.
  pose proof (select_product_in_range _ _ _ Hsel) as Hrange.
  rewrite (update_product_found clock k payload w product Hsel). cbn zeta.
  destruct (negb (Z.eqb _ _) && _); [discriminate|].
  destruct (negb (String.eqb _ _) && _); [discriminate|]. intros [= <- <-].
  exists product. unfold select_product in *; in_range. cbn.
  split; [done|]. split; [by erewrite find_overwrite_eq|].
  repeat (split; [done|]).
  split; [|done]. intros j Hne. destruct (in_int64 j); [|done].
  by rewrite find_overwrite_ne.
Qed.

Lemma update_product_effect_witness :
  ∃ product : ProductORM.t,
    select_product 1 (db traded_shop) = Some product
    ∧ select_product 1
        (db (update_product ticking_clock 1 restock_only traded_shop).2)
      = Some (ProductORM.mk (Some 1) "Milk" (Some "Dairy") 150 40 None 0 8)
    ∧ Some 1 = Some 1
    ∧ "Milk" = from_option strip (ProductORM.name product) None
    ∧ Some "Dairy" = from_option Some (ProductORM.category product) None
    ∧ 150 = default (ProductORM.price product) None
    ∧ 40 = default (ProductORM.stock product) (Some 40)
    ∧ None = from_option Some (ProductORM.description product) None
    ∧ 0 = ProductORM.created_at product
    ∧ 8 = 8
    ∧ (∀ j, j ≠ 1 →
         select_product j
           (db (update_product ticking_clock 1 restock_only traded_shop).2)
         = select_product j (db traded_shop))
    ∧ transactions
        (db (update_product ticking_clock 1 restock_only traded_shop).2)
      = transactions (db traded_shop)
    ∧ clock_reads (update_product ticking_clock 1 restock_only traded_shop).2
      = 9%nat.
Proof.
  refine (update_product_effect ticking_clock 1 restock_only traded_shop
            (update_product ticking_clock 1 restock_only traded_shop).2
            (ProductORM.mk (Some 1) "Milk" (Some "Dairy") 150 40 None 0 8) _).
  vm_compute. reflexivity.
Defined.

(** X12.  The ledger listing follows a rename: after a successful update
    that carries a name, every entry of [list_transactions] for that
    product shows the new, stripped name, also for records written under
    the old one. *)
Theorem rename_shows_in_ledger_listing (clock : nat → datetime) (k : Z)
    (payload : ProductUpdate.t) (n : string) (w w' : World)
    (product' : ProductORM.t) (outs : list TransactionOut.t)
    (o : TransactionOut.t) :
  update_product clock k payload w = (Return product', w') →
  ProductUpdate.name payload = Some n →
  list_transactions w' = (Return outs, w') →
  o ∈ outs →
  TransactionOut.product_id o = Some k →
  TransactionOut.product_name o = Some (strip n).
Proof.
  intros Hupd Hn Hlist Hin Hk.
  apply update_product_Return_inv in Hupd as [Hsel Hname].
  rewrite Hn in Hname.
  rewrite (list_transactions_names w' outs o Hlist Hin), Hk. cbn.
  by rewrite Hsel, <- Hname.
Qed.

Lemma rename_shows_in_ledger_listing_witness :
  TransactionOut.product_name
    (TransactionOut.mk (Some 1) (Some 1) "purchase" 10 100 (Some "restock") 5
       (Some "Oat milk"))
  = Some (strip " Oat milk  ").
Proof.
  refine (rename_shows_in_ledger_listing ticking_clock 1
            rename_to_padded_oat_milk " Oat milk  " traded_shop
            (update_product ticking_clock 1 rename_to_padded_oat_milk
               traded_shop).2
            (ProductORM.mk (Some 1) "Oat milk" (Some "Dairy") 150 5 None 0 8)
            [TransactionOut.mk (Some 2) (Some 1) "sale" 10 100 None 7
               (Some "Oat milk");
             TransactionOut.mk (Some 1) (Some 1) "purchase" 10 100
               (Some "restock") 5 (Some "Oat milk")]
            (TransactionOut.mk (Some 1) (Some 1) "purchase" 10 100
               (Some "restock") 5 (Some "Oat milk")) _ _ _ _ _).
  - vm_compute. reflexivity.
  - reflexivity.
  - vm_compute. reflexivity.
  - apply list_elem_of_further, list_elem_of_here.
  - reflexivity.
Defined.

(** ** What [create_product] does *)

Lemma strip_all_space (s : string) : all_space s = true → strip s = EmptyString.
Proof.
  unfold strip. induction s as [|c s IH]; [done|]. cbn.
  intros [Hc Hs]%andb_true_iff. rewrite Hc. by apply IH.
Qed.

Lemma name_taken_false (n : string) (rows : list ProductORM.t) :
  name_taken n rows = false ↔ ∀ r, r ∈ rows → ProductORM.name r ≠ n.
Proof.
  rewrite <- not_true_iff_false, name_taken_true. split.
  - intros Hnone r Hin Hname. apply Hnone. eauto.
  - intros Hall (r & Hin & Hname). by apply (Hall r).
Qed.

(** X13.  A successful [create_product] appends one row and touches
    nothing else: the key it hands out was carried by no row, every
    product found before is found unchanged, the ledger is as it was, the
    row carries the payload's price, stock and description, an empty
    category is stored as no category, and the two timestamps are the two
    clock readings of the call. *)
Theorem create_product_effect (clock : nat → datetime)
    (payload : ProductCreate.t) (w w' : World) (product : ProductORM.t) :
  create_product clock payload w = (Return product, w') →
  ∃ k : Z,
    ProductORM.id product = Some k
    ∧ (∀ r, r ∈ products (db w) → ProductORM.id r ≠ Some k)
    ∧ select_product k (db w) = None
    ∧ products (db w') = (products (db w) ++ [product])%list
    ∧ (∀ j q, select_product j (db w) = Some q →
              select_product j (db w') = Some q)
    ∧ transactions (db w') = transactions (db w)
    ∧ ProductORM.category product
      = match ProductCreate.category payload with
        | Some EmptyString => None
        | c => c
        end
    ∧ ProductORM.price product = ProductCreate.price payload
    ∧ ProductORM.stock product = ProductCreate.stock payload
    ∧ ProductORM.description product = ProductCreate.description payload
    ∧ ProductORM.created_at product = clock (clock_reads w)
    ∧ ProductORM.updated_at product = clock (S (clock_reads w)).
Proof.
  rewrite create_product_run. cbn zeta.
  destruct (negb (in_int64 _)); [discriminate|].
  destruct (name_taken _ _); [discriminate|]. intros [= <- <-].
  pose proof (allocate_rowid_fresh (omap ProductORM.id (products (db w))))
    as Hfresh.
  eexists. cbn. split; [reflexivity|]. split_and!; try done.
  - intros r Hin Hid. apply Hfresh, list_elem_of_omap. eauto.
  - unfold select_product. destruct (in_int64 _); [|done].
    by apply find_unused_key.
  - intros j q Hq. unfold select_product in *. cbn.
    destruct (in_int64 j); [|done]. by apply find_after_append.
Qed.

Lemma create_product_effect_witness :
  ∃ k : Z,
    Some 3 = Some k
    ∧ (∀ r, r ∈ products (db traded_shop) → ProductORM.id r ≠ Some k)
    ∧ select_product k (db traded_shop) = None
    ∧ products (db (create_product ticking_clock new_eggs traded_shop).2)
      = (products (db traded_shop)
           ++ [ProductORM.mk (Some 3) "Eggs" None 30 12 (Some "free range")
                             8 9])%list
    ∧ (∀ j q, select_product j (db traded_shop) = Some q →
              select_product j
                (db (create_product ticking_clock new_eggs traded_shop).2)
              = Some q)
    ∧ transactions (db (create_product ticking_clock new_eggs traded_shop).2)
      = transactions (db traded_shop)
    ∧ (None : option string) = None
    ∧ 30 = 30
    ∧ 12 = 12
    ∧ Some "free range" = Some "free range"
    ∧ 8 = 8
    ∧ 9 = 9.
Proof.
  refine (create_product_effect ticking_clock new_eggs traded_shop
            (create_product ticking_clock new_eggs traded_shop).2
            (ProductORM.mk (Some 3) "Eggs" None 30 12 (Some "free range") 8 9)
            _).
  vm_compute. reflexivity.
Defined.

(** X14.  [create_product] by cases, the clock read twice in each.  A
    stock SQLite's signed 64-bit INTEGER cannot hold ends the call with
    OverflowError, whatever the name.  With a stock that fits, the call
    returns exactly when no row carries the stripped name and raises
    DuplicateName when one does.  It fails in no other way, and a failed
    call leaves the tables as they were. *)
Theorem create_product_succeeds_iff_name_is_free (clock : nat → datetime)
    (payload : ProductCreate.t) (w : World) :
  (in_int64 (ProductCreate.stock payload) = false →
   create_product clock payload w
   = (Raise OverflowError, mkWorld (db w) (S (S (clock_reads w)))))
  ∧ (in_int64 (ProductCreate.stock payload) = true →
     (∀ r, r ∈ products (db w) →
           ProductORM.name r ≠ strip (ProductCreate.name payload)) →
     ∃ product w', create_product clock payload w = (Return product, w'))
  ∧ (in_int64 (ProductCreate.stock payload) = true →
     ∀ r, r ∈ products (db w) →
          ProductORM.name r = strip (ProductCreate.name payload) →
          create_product clock payload w
          = (Raise DuplicateName, mkWorld (db w) (S (S (clock_reads w)))))
  ∧ (∀ e w', create_product clock payload w = (Raise e, w') →
       db w' = db w
       ∧ clock_reads w' = S (S (clock_reads w))
       ∧ (e = OverflowError ∧ in_int64 (ProductCreate.stock payload) = false
          ∨ e = DuplicateName
            ∧ in_int64 (ProductCreate.stock payload) = true
            ∧ ∃ r, r ∈ products (db w)
                   ∧ ProductORM.name r = strip (ProductCreate.name payload))).
Proof.
  split_and!.
  - intros Hbig. rewrite create_product_run. cbn zeta. by rewrite Hbig.
  - intros Hfits Hfree. rewrite create_product_run. cbn zeta.
    rewrite Hfits, (proj2 (name_taken_false _ _) Hfree). cbn. eauto.
  - intros Hfits r Hin Hname.
    rewrite (create_product_taken clock payload w r Hin Hname).
    by rewrite Hfits.
  - intros e w'. rewrite create_product_run. cbn zeta.
    destruct (in_int64 (ProductCreate.stock payload)); cbn;
      [|intros [= <- <-]; auto].
    destruct (name_taken _ _) eqn:Htaken; [|discriminate].
    intros [= <- <-]. apply name_taken_true in Htaken. auto 10.
Qed.

Lemma create_product_succeeds_iff_name_is_free_witness :
  create_product ticking_clock new_milk_padded_overstocked traded_shop
  = (Raise OverflowError, mkWorld (db traded_shop) 10)
  ∧ (∃ product w',
       create_product ticking_clock new_eggs traded_shop
       = (Return product, w'))
  ∧ create_product ticking_clock new_milk_padded traded_shop
    = (Raise DuplicateName, mkWorld (db traded_shop) 10).
Proof.
  split; [|split].
  - refine (proj1 (create_product_succeeds_iff_name_is_free ticking_clock
                     new_milk_padded_overstocked traded_shop) _).
    reflexivity.
  - refine (proj1 (proj2 (create_product_succeeds_iff_name_is_free
                            ticking_clock new_eggs traded_shop)) _ _).
    + reflexivity.
    + intros r Hin. repeat (apply elem_of_cons in Hin as [->|Hin]);
        [discriminate|discriminate|by apply elem_of_nil in Hin].
  - refine (proj1 (proj2 (proj2 (create_product_succeeds_iff_name_is_free
                                   ticking_clock new_milk_padded traded_shop)))
              _ (ProductORM.mk (Some 1) "Milk" (Some "Dairy") 150 5 None 0 6)
              _ _).
    + reflexivity.
    + apply list_elem_of_here.
    + reflexivity.
Defined.

(** X15.  A name made of whitespace only passes the schema, which asks
    for one character at least, and is not refused by the handler: with a
    stock that fits SQLite's signed 64-bit INTEGER it is stored as the
    empty name, provided no product has the empty name yet; a second such
    create then collides with the first. *)
Theorem create_product_blank_name (clock : nat → datetime)
    (payload : ProductCreate.t) (w : World) :
  all_space (ProductCreate.name payload) = true →
  in_int64 (ProductCreate.stock payload) = true →
  (∀ r, r ∈ products (db w) → ProductORM.name r ≠ EmptyString) →
  ∃ (product : ProductORM.t) (w' : World),
    create_product clock payload w = (Return product, w')
    ∧ ProductORM.name product = EmptyString
    ∧ ProductCreate.name payload ≠ EmptyString
    ∧ ∀ again : ProductCreate.t,
        all_space (ProductCreate.name again) = true →
        in_int64 (ProductCreate.stock again) = true →
        create_product clock again w'
        = (Raise DuplicateName, mkWorld (db w') (S (S (clock_reads w')))).
Proof.
  intros Hblank Hfits Hfree. rewrite create_product_run. cbn zeta.
  rewrite Hfits, (strip_all_space _ Hblank).
  rewrite (proj2 (name_taken_false _ _) Hfree). cbn.
  eexists _, _. split; [reflexivity|]. split; [reflexivity|]. split.
  { pose proof (ProductCreate.name_length payload) as Hlen.
    intros Hempty. by rewrite Hempty in Hlen. }
  intros again Hagain Hfits'.
  erewrite create_product_taken.
  - by rewrite Hfits'.
  - cbn. apply elem_of_app. right. apply list_elem_of_here.
  - cbn. by rewrite (strip_all_space _ Hagain).
Qed.

Lemma create_product_blank_name_witness :
  ∃ (product : ProductORM.t) (w' : World),
    create_product ticking_clock new_blank traded_shop = (Return product, w')
    ∧ ProductORM.name product = EmptyString
    ∧ ProductCreate.name new_blank ≠ EmptyString
    ∧ ∀ again : ProductCreate.t,
        all_space (ProductCreate.name again) = true →
        in_int64 (ProductCreate.stock again) = true →
        create_product ticking_clock again w'
        = (Raise DuplicateName, mkWorld (db w') (S (S (clock_reads w')))).
Proof.
  apply (create_product_blank_name ticking_clock new_blank traded_shop).
  - reflexivity.
  - reflexivity.
  - intros r Hin. repeat (apply elem_of_cons in Hin as [->|Hin]);
      [discriminate|discriminate|by apply elem_of_nil in Hin].
Defined.

(** ** Rows overwritten in place *)

Lemma overwrite_ids (k : Z) (p' : ProductORM.t) (rows : list ProductORM.t) :
  ProductORM.id p' = Some k →
  map ProductORM.id (map (λ r, if has_id (Some k) r then p' else r) rows)
  = map ProductORM.id rows.
Proof.
  intros Hid. induction rows as [|r rows IH]; [done|]. cbn. rewrite IH.
  destruct (has_id (Some k) r) eqn:Hr; [|done].
  apply has_id_true in Hr. congruence.
Qed.

Lemma overwrite_absent (k : Z) (p' : ProductORM.t) (rows : list ProductORM.t) :
  Some k ∉ map ProductORM.id rows →
  map (λ r, if has_id (Some k) r then p' else r) rows = rows.
Proof.
  induction rows as [|r rows IH]; [done|]. cbn.
  intros Hnotin%not_elem_of_cons. destruct Hnotin as [Hr Hrest].
  rewrite (proj2 (has_id_false (Some k) r)) by congruence.
  by rewrite IH.
Qed.

Lemma overwrite_elem_of (k : Z) (p' x : ProductORM.t)
    (rows : list ProductORM.t) :
  x ∈ map (λ r, if has_id (Some k) r then p' else r) rows →
  x = p' ∨ x ∈ rows.
Proof.
  intros (r & -> & Hin)%list_elem_of_fmap.
  destruct (has_id (Some k) r); auto.
Qed.

Lemma overwrite_names_NoDup (k : Z) (p' : ProductORM.t)
    (rows : list ProductORM.t) :
  NoDup (map ProductORM.id rows) →
  NoDup (map ProductORM.name rows) →
  (∀ r, r ∈ rows → ProductORM.id r ≠ Some k →
        ProductORM.name r ≠ ProductORM.name p') →
  NoDup (map ProductORM.name
           (map (λ r, if has_id (Some k) r then p' else r) rows)).
Proof.
  induction rows as [|r rows IH]; [done|]. cbn.
  intros [Hid Hids]%NoDup_cons [Hname Hnames]%NoDup_cons Hothers.
  destruct (has_id (Some k) r) eqn:Hr.
  - apply has_id_true in Hr. rewrite Hr in Hid.
    rewrite (overwrite_absent k p' rows Hid).
    apply NoDup_cons. split; [|done].
    intros (x & Hx & Hin)%list_elem_of_fmap.
    apply (Hothers x); [by right| |done].
    intros Hxk. apply Hid, list_elem_of_fmap. eauto.
  - apply has_id_false in Hr.
    apply NoDup_cons. split.
    + intros (x & Hx & [->|Hin]%overwrite_elem_of)%list_elem_of_fmap.
      * apply (Hothers r); [by left|done|done].
      * apply Hname, list_elem_of_fmap. eauto.
    + apply IH; [done|done|]. intros x Hin. apply Hothers. by right.
Qed.

Lemma NoDup_map_inj_on {A B : Type} (f : A → B) (l : list A) (x y : A) :
  NoDup (map f l) → x ∈ l → y ∈ l → f x = f y → x = y.
Proof.
  induction l as [|a l IH]; [by intros _ ?%elem_of_nil|]. cbn.
  intros [Ha Hl]%NoDup_cons [->|Hx]%elem_of_cons [->|Hy]%elem_of_cons Heq.
  - done.
  - exfalso. apply Ha, list_elem_of_fmap. eauto.
  - exfalso. apply Ha, list_elem_of_fmap. eauto.
  - by apply IH.
Qed.

Lemma select_product_elem_of (k : Z) (d : Database) (p : ProductORM.t) :
  select_product k d = Some p → p ∈ products d.
Proof.
  unfold select_product. destruct (in_int64 k); [|done].
  intros [Hin _]%find_some. by apply list_elem_of_In.
Qed.

Lemma NoDup_map_filter {A B : Type} (f : A → B) (P : A → Prop)
    `{!∀ x, Decision (P x)} (l : list A) :
  NoDup (map f l) → NoDup (map f (filter P l)).
Proof.
  intros Hl. pose proof (sublist_filter P l) as Hsub.
  apply (fmap_sublist f) in Hsub. exact (sublist_NoDup _ _ Hl Hsub).
Qed.

(** ** Invariants every handler keeps *)

(** X16.  Keys and names stay unique: if no two rows of the products
    table share a key or a name, that is still so after any call of
    [create_product], [update_product], [purchase] or [delete_product],
    whether the call returns or raises. *)
Theorem handlers_keep_keys_and_names_unique (clock : nat → datetime)
    (w : World) :
  keys_and_names_unique (db w) →
  (∀ payload,
     keys_and_names_unique (db (create_product clock payload w).2))
  ∧ (∀ k payload,
       keys_and_names_unique (db (update_product clock k payload w).2))
  ∧ (∀ payload, keys_and_names_unique (db (purchase clock payload w).2))
  ∧ (∀ k, keys_and_names_unique (db (delete_product k w).2)).
Proof.
  intros [Hids Hnames]. split_and!.
  - intros payload. rewrite create_product_run. cbn zeta.
    destruct (negb (in_int64 _)); [done|].
    destruct (name_taken _ _) eqn:Htaken; [done|]. cbn.
    unfold keys_and_names_unique. cbn. rewrite !map_app. cbn.
    split; apply NoDup_app; (split; [done|]); (split; [|apply NoDup_singleton]).
    + intros x (r & -> & Hin)%list_elem_of_fmap Hx%list_elem_of_singleton.
      apply (allocate_rowid_fresh (omap ProductORM.id (products (db w)))).
      apply list_elem_of_omap. eauto.
    + intros x (r & -> & Hin)%list_elem_of_fmap Hx%list_elem_of_singleton.
      by apply (proj1 (name_taken_false _ _) Htaken r).
  - intros k payload.
    destruct (select_product k (db w)) as [product|] eqn:Hsel; cycle 1.
    { by rewrite (update_product_missing clock k payload w Hsel). }
    pose proof (select_product_id _ _ _ Hsel) as Hid.
    pose proof (select_product_in_range _ _ _ Hsel) as Hrange.
    pose proof (select_product_elem_of _ _ _ Hsel) as Hin.
    rewrite (update_product_found clock k payload w product Hsel). cbn zeta.
    destruct (negb (Z.eqb _ _) && _); [done|].
    destruct (negb (String.eqb _ _) && _) eqn:Hcond; [done|]. cbn.
    unfold keys_and_names_unique. cbn. split.
    + by rewrite overwrite_ids.
    + apply overwrite_names_NoDup; [done|done|]. cbn.
      intros r Hr Hrk Hname.
      apply andb_false_iff in Hcond as [Hsame|Hfree]; cbn in *.
      * apply negb_false_iff, eqb_string_true in Hsame.
        assert (r = product) as ->; [|congruence].
        apply (NoDup_map_inj_on ProductORM.name (products (db w)));
          [done|done|done|congruence].
      * apply not_true_iff_false in Hfree. apply Hfree.
        apply name_taken_by_another. eauto.
  - intros payload.
    destruct (purchase clock payload w) as [[out|e] w'] eqn:Hrun; cycle 1.
    { apply purchase_Raise_inv in Hrun as [Hdb _]. cbn. by rewrite Hdb. }
    apply purchase_Return_inv in Hrun as (product & Hsel & _ & Hdb & _).
    pose proof (select_product_id _ _ _ Hsel) as Hid.
    pose proof (select_product_in_range _ _ _ Hsel) as Hrange.
    pose proof (select_product_elem_of _ _ _ Hsel) as Hin.
    cbn. rewrite Hdb. unfold keys_and_names_unique. cbn. split.
    + by rewrite overwrite_ids.
    + apply overwrite_names_NoDup; [done|done|]. cbn.
      intros r Hr Hrk Hname.
      assert (r = product) as ->; [|congruence].
      by apply (NoDup_map_inj_on ProductORM.name (products (db w))).
  - intros k. rewrite delete_product_run.
    destruct (select_product k (db w)) as [product|]; [|done].
    cbn. unfold keys_and_names_unique. cbn.
    split; by apply NoDup_map_filter.
Qed.

Lemma handlers_keep_keys_and_names_unique_witness :
  (∀ payload,
     keys_and_names_unique
       (db (create_product ticking_clock payload traded_shop).2))
  ∧ (∀ k payload,
       keys_and_names_unique
         (db (update_product ticking_clock k payload traded_shop).2))
  ∧ (∀ payload,
       keys_and_names_unique (db (purchase ticking_clock payload traded_shop).2))
  ∧ (∀ k, keys_and_names_unique (db (delete_product k traded_shop).2)).
Proof.
  apply (handlers_keep_keys_and_names_unique ticking_clock traded_shop).
  split; refine (bool_decide_unpack _ _); vm_compute; exact I.
Defined.

Lemma select_after_overwrite (k j : Z) (p p' : ProductORM.t)
    (rows : list ProductORM.t) :
  ProductORM.id p' = Some k →
  List.find (has_id (Some k)) rows = Some p →
  is_Some (List.find (has_id (Some j)) rows) →
  is_Some (List.find (has_id (Some j))
             (map (λ r, if has_id (Some k) r then p' else r) rows)).
Proof.
  intros Hid Hk Hj. destruct (decide (j = k)) as [->|Hne].
  - by erewrite find_overwrite_eq.
  - by rewrite find_overwrite_ne.
Qed.

(** X17.  The ledger never refers to a product that is not there: if
    every ledger record carries the key of a product in the table, that
    is still so after any call of [create_product], [update_product],
    [purchase] or [delete_product]; the last one takes the product's
    records with it. *)
Theorem handlers_keep_ledger_without_orphans (clock : nat → datetime)
    (w : World) :
  no_orphans (db w) →
  (∀ payload, no_orphans (db (create_product clock payload w).2))
  ∧ (∀ k payload, no_orphans (db (update_product clock k payload w).2))
  ∧ (∀ payload, no_orphans (db (purchase clock payload w).2))
  ∧ (∀ k, no_orphans (db (delete_product k w).2)).
Proof.
  intros Hw. split_and!.
  - intros payload. rewrite create_product_run. cbn zeta.
    destruct (negb (in_int64 _)); [done|].
    destruct (name_taken _ _); [done|]. cbn.
    intros x Hx. destruct (Hw x Hx) as (j & Hj & [q Hq]).
    exists j. split; [done|]. exists q.
    unfold select_product in *. cbn.
    destruct (in_int64 j); [|done]. by apply find_after_append.
  - intros k payload.
    destruct (select_product k (db w)) as [product|] eqn:Hsel; cycle 1.
    { by rewrite (update_product_missing clock k payload w Hsel). }
    pose proof (select_product_id _ _ _ Hsel) as Hid.
    pose proof (select_product_in_range _ _ _ Hsel) as Hrange.
    rewrite (update_product_found clock k payload w product Hsel). cbn zeta.
    destruct (negb (Z.eqb _ _) && _); [done|].
    destruct (negb (String.eqb _ _) && _); [done|]. cbn.
    intros x Hx. destruct (Hw x Hx) as (j & Hj & Hsome).
    exists j. split; [done|]. unfold select_product in *; in_range. cbn.
    destruct (in_int64 j); [|by destruct Hsome].
    by eapply select_after_overwrite.
  - intros payload.
    destruct (purchase clock payload w) as [[out|e] w'] eqn:Hrun; cycle 1.
    { apply purchase_Raise_inv in Hrun as [Hdb _]. cbn. by rewrite Hdb. }
    apply purchase_Return_inv in Hrun as (product & Hsel & _ & Hdb & _).
    pose proof (select_product_id _ _ _ Hsel) as Hid.
    pose proof (select_product_in_range _ _ _ Hsel) as Hrange.
    cbn. rewrite Hdb. intros x. cbn.
    intros [Hx|Hx%list_elem_of_singleton]%elem_of_app; [|subst x].
    + destruct (Hw x Hx) as (j & Hj & Hsome).
      exists j. split; [done|]. unfold select_product in *; in_range. cbn.
      destruct (in_int64 j); [|by destruct Hsome].
      by eapply select_after_overwrite.
    + eexists. split; [reflexivity|].
      unfold select_product in *; in_range. cbn.
      by erewrite find_overwrite_eq.
  - intros k. rewrite delete_product_run.
    destruct (select_product k (db w)) as [product|] eqn:Hsel; [|done].
    pose proof (select_product_id _ _ _ Hsel) as Hid.
    pose proof (select_product_in_range _ _ _ Hsel) as Hrange.
    unfold no_orphans, delete_product_rows. cbn. rewrite Hid.
    intros x [Hxk Hx]%list_elem_of_filter.
    destruct (Hw x Hx) as (j & Hj & Hsome).
    exists j. split; [done|]. unfold select_product in *; in_range. cbn.
    destruct (in_int64 j); [|by destruct Hsome].
    rewrite find_without_key; [done|congruence].
Qed.

Lemma handlers_keep_ledger_without_orphans_witness :
  (∀ payload,
     no_orphans (db (create_product ticking_clock payload traded_shop).2))
  ∧ (∀ k payload,
       no_orphans (db (update_product ticking_clock k payload traded_shop).2))
  ∧ (∀ payload, no_orphans (db (purchase ticking_clock payload traded_shop).2))
  ∧ (∀ k, no_orphans (db (delete_product k traded_shop).2)).
Proof.
  apply (handlers_keep_ledger_without_orphans ticking_clock traded_shop).
  intros x Hx. exists 1.
  repeat (apply elem_of_cons in Hx as [->|Hx]);
    [by split; [|vm_compute; eauto]..|by apply elem_of_nil in Hx].
Defined.

(** X18.  Stock is never negative anywhere: if no row has a negative
    stock, none has after a [purchase] or a [delete_product], after a
    [create_product] whose payload's stock is not negative, or after an
    [update_product] whose payload's stock, when it has one, is not
    negative (the two [ge=0] fields of the schemas). *)
Theorem handlers_keep_stocks_nonneg (clock : nat → datetime) (w : World) :
  stocks_nonneg (db w) →
  (∀ payload, 0 <= ProductCreate.stock payload →
     stocks_nonneg (db (create_product clock payload w).2))
  ∧ (∀ k payload,
       from_option (λ s, 0 <= s) True (ProductUpdate.stock payload) →
       stocks_nonneg (db (update_product clock k payload w).2))
  ∧ (∀ payload, stocks_nonneg (db (purchase clock payload w).2))
  ∧ (∀ k, stocks_nonneg (db (delete_product k w).2)).
Proof.
  intros Hw. split_and!.
  - intros payload Hstock. rewrite create_product_run. cbn zeta.
    destruct (negb (in_int64 _)); [done|].
    destruct (name_taken _ _); [done|]. cbn.
    intros r [Hr|Hr%list_elem_of_singleton]%elem_of_app;
      [by apply Hw|by subst r].
  - intros k payload Hstock.
    destruct (select_product k (db w)) as [product|] eqn:Hsel; cycle 1.
    { by rewrite (update_product_missing clock k payload w Hsel). }
    pose proof (select_product_elem_of _ _ _ Hsel) as Hin.
    rewrite (update_product_found clock k payload w product Hsel). cbn zeta.
    destruct (negb (Z.eqb _ _) && _); [done|].
    destruct (negb (String.eqb _ _) && _); [done|]. cbn.
    intros r [->|Hr]%overwrite_elem_of; [|by apply Hw]. cbn.
    destruct (ProductUpdate.stock payload); cbn in *; [done|by apply Hw].
  - intros payload.
    destruct (purchase clock payload w) as [[out|e] w'] eqn:Hrun; cycle 1.
    { apply purchase_Raise_inv in Hrun as [Hdb _]. cbn. by rewrite Hdb. }
    apply purchase_Return_inv in Hrun as (product & Hsel & Hkind & Hdb & _).
    pose proof (select_product_elem_of _ _ _ Hsel) as Hin.
    cbn. rewrite Hdb.
    intros r [->|Hr]%overwrite_elem_of; [|by apply Hw]. cbn.
    specialize (Hw product Hin).
    destruct Hkind as [->|[-> Hle]]; cbn; lia.
  - intros k. rewrite delete_product_run.
    destruct (select_product k (db w)) as [product|]; [|done].
    cbn. intros r [_ Hr]%list_elem_of_filter. by apply Hw.
Qed.

Lemma handlers_keep_stocks_nonneg_witness :
  stocks_nonneg (db (create_product ticking_clock new_eggs traded_shop).2)
  ∧ stocks_nonneg
      (db (update_product ticking_clock 1 restock_only traded_shop).2)
  ∧ (∀ payload,
       stocks_nonneg (db (purchase ticking_clock payload traded_shop).2))
  ∧ (∀ k, stocks_nonneg (db (delete_product k traded_shop).2)).
Proof.
  assert (stocks_nonneg (db traded_shop)) as Hshop.
  { intros r Hr. repeat (apply elem_of_cons in Hr as [->|Hr]);
      [cbn; lia|cbn; lia|by apply elem_of_nil in Hr]. }
  destruct (handlers_keep_stocks_nonneg ticking_clock traded_shop Hshop)
    as (Hcreate & Hupdate & Hpurchase & Hdelete).
  split_and!.
  - apply Hcreate. cbn. lia.
  - apply Hupdate. cbn. lia.
  - exact Hpurchase.
  - exact Hdelete.
Defined.

(** ** Stock and ledger move together *)

Lemma net_movement_app (k : Z) (a b : list TransactionORM.t) :
  net_movement k (a ++ b) = net_movement k a + net_movement k b.
Proof.
  unfold net_movement. induction a as [|x a IH]; [cbn; lia|]. cbn.
  rewrite IH. case_bool_decide; lia.
Qed.

Lemma purchase_moves_stock_with_ledger (clock : nat → datetime)
    (payload : TransactionCreate.t) (w w' : World) (out : TransactionOut.t)
    (k s : Z) :
  purchase clock payload w = (Return out, w') →
  stock_of k (db w) = Some s →
  stock_of k (db w')
  = Some (s + (net_movement k (transactions (db w'))
               - net_movement k (transactions (db w)))).
Proof.
  intros Hrun Hs.
  apply purchase_Return_inv in Hrun as (product & Hsel & Hkind & Hdb & _).
  pose proof (select_product_id _ _ _ Hsel) as Hid.
  pose proof (select_product_in_range _ _ _ Hsel) as Hrange.
  rewrite Hdb. unfold stock_of, select_product in *.
  cbn -[net_movement]. rewrite net_movement_app. cbn.
  destruct (decide (k = TransactionCreate.product_id payload)) as [->|Hne].
  - in_range. erewrite find_overwrite_eq; [|exact Hid|exact Hsel]. cbn.
    rewrite Hsel in Hs. injection Hs as <-.
    rewrite bool_decide_eq_true_2 by done. unfold signed_quantity. cbn.
    f_equal. destruct Hkind as [->|[-> _]]; cbn; lia.
  - destruct (in_int64 k); [|done].
    rewrite find_overwrite_ne; [|exact Hid|exact Hne]. rewrite Hs.
    rewrite bool_decide_eq_false_2 by congruence. f_equal. lia.
Qed.

(** X19.  Over any run of successful calls to [purchase] the stock of a
    product moves by exactly what the ledger gained for it: the new stock
    is the old one plus the purchased and minus the sold quantities of the
    product's records added during the run. *)
Theorem stock_follows_ledger (clock : nat → datetime)
    (payloads : list TransactionCreate.t) (w w' : World) (k s : Z) :
  apply_all clock payloads w = Some w' →
  stock_of k (db w) = Some s →
  stock_of k (db w')
  = Some (s + (net_movement k (transactions (db w'))
               - net_movement k (transactions (db w)))).
Proof.
  revert w s. induction payloads as [|payload rest IH]; intros w s Hrun Hs.
  - injection Hrun as <-. rewrite Hs. f_equal. lia.
  - cbn in Hrun.
    destruct (purchase clock payload w) as [[out|e] w1] eqn:Hstep; [|done].
    pose proof (purchase_moves_stock_with_ledger _ _ _ _ _ _ _ Hstep Hs) as Hs1.
    rewrite (IH w1 _ Hrun Hs1). f_equal. lia.
Qed.

Lemma stock_follows_ledger_witness :
  stock_of 1 (db traded_shop)
  = Some (5 + (net_movement 1 (transactions (db traded_shop))
               - net_movement 1 (transactions (db shop)))).
Proof.
  refine (stock_follows_ledger ticking_clock [buy_milk; sell_milk] shop
            traded_shop 1 5 _ _).
  - vm_compute. reflexivity.
  - reflexivity.
Defined.

(** X20.  Deleting a product frees its name: in a table where names are
    unique, once a product is deleted a create with that product's name,
    and with a stock that fits SQLite's signed 64-bit INTEGER, returns. *)
Theorem delete_frees_the_name (clock : nat → datetime) (k : Z)
    (payload : ProductCreate.t) (w w' : World) (product : ProductORM.t)
    (out : list (string * string)) :
  keys_and_names_unique (db w) →
  select_product k (db w) = Some product →
  delete_product k w = (Return out, w') →
  strip (ProductCreate.name payload) = ProductORM.name product →
  in_int64 (ProductCreate.stock payload) = true →
  ∃ (product' : ProductORM.t) (w'' : World),
    create_product clock payload w' = (Return product', w'')
    ∧ ProductORM.name product' = ProductORM.name product.
Proof.
  intros [_ Hnames] Hsel Hdel Hname Hfits.
  pose proof (select_product_id _ _ _ Hsel) as Hid.
  pose proof (select_product_elem_of _ _ _ Hsel) as Hin.
  rewrite delete_product_run, Hsel in Hdel. injection Hdel as <- <-.
  rewrite create_product_run. cbn zeta. rewrite Hfits. cbn [negb].
  rewrite (proj2 (name_taken_false _ _)); [cbn; eauto|].
  cbn. intros r [Hrk Hr]%list_elem_of_filter Hrname.
  apply Hrk. f_equal.
  apply (NoDup_map_inj_on ProductORM.name (products (db w)));
    [done|done|done|congruence].
Qed.

Lemma delete_frees_the_name_witness :
  ∃ (product' : ProductORM.t) (w'' : World),
    create_product ticking_clock new_milk_padded
      (delete_product 1 traded_shop).2
    = (Return product', w'')
    ∧ ProductORM.name product' = "Milk".
Proof.
  refine (delete_frees_the_name ticking_clock 1 new_milk_padded traded_shop
            (delete_product 1 traded_shop).2
            (ProductORM.mk (Some 1) "Milk" (Some "Dairy") 150 5 None 0 6)
            [("status", "ok")] _ _ _ _ _).
  - split; refine (bool_decide_unpack _ _); vm_compute; exact I.
  - reflexivity.
  - vm_compute. reflexivity.
  - reflexivity.
  - reflexivity.
Defined.

(** ** Compositions *)

(** X21.  The catalog listing follows creates and deletes: a product just
    created is in the list [list_products] returns, and after a product
    is deleted no listed row carries its key. *)
Theorem list_products_follows_create_and_delete (clock : nat → datetime)
    (w : World) :
  (∀ payload product w',
     create_product clock payload w = (Return product, w') →
     ∃ rows, list_products w' = (Return rows, w') ∧ product ∈ rows)
  ∧ (∀ k out w',
       delete_product k w = (Return out, w') →
       ∃ rows, list_products w' = (Return rows, w')
               ∧ ∀ r, r ∈ rows → ProductORM.id r ≠ Some k).
Proof.
  split.
  - intros payload product w' Hrun.
    apply create_product_Return_inv in Hrun as (k & _ & _ & _ & Hrows & _).
    eexists. split; [reflexivity|].
    rewrite (merge_sort_Permutation newer_product), Hrows.
    apply elem_of_app. right. apply list_elem_of_here.
  - intros k out w'. rewrite delete_product_run.
    destruct (select_product k (db w)) as [product|] eqn:Hsel; [|done].
    pose proof (select_product_id _ _ _ Hsel) as Hid.
    pose proof (select_product_in_range _ _ _ Hsel) as Hrange.
    intros [= <- <-]. eexists. split; [reflexivity|].
    intros r. rewrite (merge_sort_Permutation newer_product). cbn.
    rewrite Hid. by intros [? _]%list_elem_of_filter.
Qed.

(** X22.  The ledger is append-only under [purchase]: after a run of
    successful calls the ledger is the old ledger followed by one new
    record for each call, and the products table has as many rows as
    before. *)
Theorem purchases_only_append (clock : nat → datetime)
    (payloads : list TransactionCreate.t) (w w' : World) :
  apply_all clock payloads w = Some w' →
  ∃ added : list TransactionORM.t,
    transactions (db w') = (transactions (db w) ++ added)%list
    ∧ List.length added = List.length payloads
    ∧ List.length (products (db w')) = List.length (products (db w)).
Proof.
  revert w. induction payloads as [|payload rest IH]; intros w Hrun.
  - injection Hrun as <-. exists []. by rewrite app_nil_r.
  - cbn in Hrun.
    destruct (purchase clock payload w) as [[out|e] w1] eqn:Hstep; [|done].
    apply purchase_Return_inv in Hstep as (product & _ & _ & Hdb & _).
    destruct (IH w1 Hrun) as (added & Hledger & Hlen & Hrows).
    rewrite Hdb in Hledger, Hrows. cbn in Hledger, Hrows.
    rewrite length_map in Hrows. rewrite <- app_assoc in Hledger.
    eexists. split; [exact Hledger|]. split; [|exact Hrows].
    cbn. by rewrite Hlen.
Qed.

Lemma purchases_only_append_witness :
  ∃ added : list TransactionORM.t,
    transactions (db traded_shop) = (transactions (db shop) ++ added)%list
    ∧ List.length added = 2%nat
    ∧ List.length (products (db traded_shop))
      = List.length (products (db shop)).
Proof.
  refine (purchases_only_append ticking_clock [buy_milk; sell_milk] shop
            traded_shop _).
  vm_compute. reflexivity.
Defined.

Lemma rstrip_fixed (s : string) : ends_with_space s = false → rstrip s = s.
Proof.
  induction s as [|c s IH]; [done|]. cbn.
  destruct s as [|c' s'].
  - cbn. by intros ->.
  - intros Hend. rewrite (IH Hend). done.
Qed.

Lemma strip_idempotent (s : string) : strip (strip s) = strip s.
Proof.
  destruct (strip_spec s) as (_ & _ & _ & _ & _ & Hstart & Hend).
  unfold strip at 1.
  assert (lstrip (strip s) = strip s) as ->.
  { destruct (strip s) as [|c t]; [done|]. cbn in *. by rewrite Hstart. }
  by apply rstrip_fixed.
Qed.

(** X23.  A stored name can be sent back as it is: [strip] does nothing
    to a name it has already stripped.  So, for a product
    [create_product] has returned under a key that fits SQLite's signed
    64-bit INTEGER, an update that carries the returned name, and a
    stock that fits if it carries one, is accepted and keeps the name;
    and a create that carries the returned name and a stock that fits
    collides with the product.  (Both payloads have passed the schemas,
    so the name in them is not empty.) *)
Theorem returned_name_round_trips (clock : nat → datetime)
    (payload : ProductCreate.t) (w w1 : World) (product : ProductORM.t) :
  create_product clock payload w = (Return product, w1) →
  strip (ProductORM.name product) = ProductORM.name product
  ∧ (∀ (k : Z) (rename : ProductUpdate.t),
       ProductORM.id product = Some k →
       in_int64 k = true →
       ProductUpdate.name rename = Some (ProductORM.name product) →
       from_option in_int64 true (ProductUpdate.stock rename) = true →
       ∃ product' w2,
         update_product clock k rename w1 = (Return product', w2)
         ∧ ProductORM.name product' = ProductORM.name product)
  ∧ (∀ again : ProductCreate.t,
       ProductCreate.name again = ProductORM.name product →
       in_int64 (ProductCreate.stock again) = true →
       ∃ w2, create_product clock again w1 = (Raise DuplicateName, w2)
             ∧ db w2 = db w1).
Proof.
  intros Hrun.
  apply create_product_Return_inv in Hrun
    as (k & Hid & Hname & _ & Hrows & _ & _ & Hsel).
  assert (strip (ProductORM.name product) = ProductORM.name product) as Hfix
    by (rewrite Hname; apply strip_idempotent).
  split; [exact Hfix|]. split.
  - intros k' rename Hk' Hrange Hrename Hfits.
    assert (k' = k) as -> by congruence.
    rewrite (update_product_found clock k rename w1 product (Hsel Hrange)).
    cbn. rewrite Hrename. cbn. rewrite Hfix, String.eqb_refl. cbn.
    assert (negb (ProductORM.stock product
                  =? default (ProductORM.stock product)
                       (ProductUpdate.stock rename))
            && negb (in_int64 (default (ProductORM.stock product)
                                 (ProductUpdate.stock rename))) = false)
      as ->.
    { destruct (ProductUpdate.stock rename) as [s|]; cbn in *.
      - rewrite Hfits. cbn. apply andb_false_r.
      - by rewrite Z.eqb_refl. }
    eauto.
  - intros again Hagain Hfits. eexists. split.
    + rewrite (create_product_taken clock again w1 product).
      * by rewrite Hfits.
      * rewrite Hrows. apply elem_of_app. right. apply list_elem_of_here.
      * by rewrite Hagain, Hfix.
    + reflexivity.
Qed.

Lemma returned_name_round_trips_witness :
  strip "Milk" = "Milk"
  ∧ (∃ product' w2,
       update_product ticking_clock 1 rename_to_own_name
         (create_product ticking_clock new_milk_padded opening).2
       = (Return product', w2)
       ∧ ProductORM.name product' = "Milk")
  ∧ (∃ w2, create_product ticking_clock new_milk
             (create_product ticking_clock new_milk_padded opening).2
           = (Raise DuplicateName, w2)
           ∧ db w2 = db (create_product ticking_clock new_milk_padded
                           opening).2).
Proof.
  assert (create_product ticking_clock new_milk_padded opening
          = (Return
               (ProductORM.mk (Some 1) "Milk" (Some "Dairy") 150 5 None 0 1),
             (create_product ticking_clock new_milk_padded opening).2))
    as Hrun by (vm_compute; reflexivity).
  destruct (returned_name_round_trips ticking_clock new_milk_padded opening
              _ _ Hrun) as (Hfix & Hupdate & Hcreate).
  split; [exact Hfix|]. split.
  - apply (Hupdate 1 rename_to_own_name); reflexivity.
  - apply (Hcreate new_milk); reflexivity.
Defined.

Lemma list_products_follows_create_and_delete_witness :
  (∃ rows,
     list_products (create_product ticking_clock new_eggs traded_shop).2
     = (Return rows, (create_product ticking_clock new_eggs traded_shop).2)
     ∧ ProductORM.mk (Some 3) "Eggs" None 30 12 (Some "free range") 8 9
       ∈ rows)
  ∧ (∃ rows,
       list_products (delete_product 1 traded_shop).2
       = (Return rows, (delete_product 1 traded_shop).2)
       ∧ ∀ r, r ∈ rows → ProductORM.id r ≠ Some 1).
Proof.
  destruct (list_products_follows_create_and_delete ticking_clock traded_shop)
    as [Hcreate Hdelete].
  split.
  - refine (Hcreate new_eggs _ _ _). vm_compute. reflexivity.
  - refine (Hdelete 1 [("status", "ok")] _ _). vm_compute. reflexivity.
Defined.
